(** * mlflow-tutorial: the registry workflow of [sample.py]

    A shallow embedding of [wait_model_transition] and [main] from
    [src/sample.py].  The script talks to an MLflow tracking server and
    model registry, to the file system and to scikit-learn; all of
    these are outside the program, so they are modelled as an
    environment [Env] that answers each request, while the program
    itself is a computation in a state-and-exception monad whose state
    records the sequence of requests issued so far. *)

From Stdlib Require Import String Ascii ZArith List Bool Lia DecimalString.
Import ListNotations.

Open Scope string_scope.
Open Scope list_scope.
Open Scope Z_scope.

(** ** Python values used by the script *)

(** A raised Python exception: its class and its message.  Every
    exception the model raises is a subclass of [Exception], which is
    what the [except Exception] clause of [main] catches. *)
Record PyExc : Type := mkExc { exc_class : string; exc_msg : string }.

(** [str(e)] *)
Definition str_exc (e : PyExc) : string := exc_msg e.

(** The outcome of a call: a returned value or a raised exception. *)
Inductive Result (A : Type) : Type :=
| Returned (a : A)
| Raised (e : PyExc).
Arguments Returned {A} a.
Arguments Raised {A} e.

(** [mlflow.entities.model_registry.model_version_status.ModelVersionStatus]:
    the three registry states, their names, and the two conversions the
    loop uses. *)
Module ModelVersionStatus.

Inductive t : Type :=
| PENDING_REGISTRATION
| FAILED_REGISTRATION
| READY.

Definition to_string (s : t) : string :=
  match s with
  | PENDING_REGISTRATION => "PENDING_REGISTRATION"
  | FAILED_REGISTRATION => "FAILED_REGISTRATION"
  | READY => "READY"
  end.

Definition from_string (status_str : string) : Result t :=
  if String.eqb status_str "PENDING_REGISTRATION" then Returned PENDING_REGISTRATION
  else if String.eqb status_str "FAILED_REGISTRATION" then Returned FAILED_REGISTRATION
  else if String.eqb status_str "READY" then Returned READY
  else Raised (mkExc "Exception"
                 ("Could not get model version status corresponding to string "
                    ++ status_str
                    ++ ". Valid status strings: "
                    ++ "['PENDING_REGISTRATION', 'FAILED_REGISTRATION', 'READY']")%string).

(** [status == ModelVersionStatus.READY] and friends *)
Definition eqb (a b : t) : bool :=
  match a, b with
  | PENDING_REGISTRATION, PENDING_REGISTRATION => true
  | FAILED_REGISTRATION, FAILED_REGISTRATION => true
  | READY, READY => true
  | _, _ => false
  end.

End ModelVersionStatus.
Import ModelVersionStatus (PENDING_REGISTRATION, FAILED_REGISTRATION, READY).
Abbreviation Status := ModelVersionStatus.t.

(** A model version as the registry reports it; [mv_status] is the
    status string that [from_string] parses.  [mv_version] is the
    number of the version.  The client holds it as text, the decimal
    numeral of that number: this text is what [max] compares at line
    147, and [int] at line 159 turns it back into the number. *)
Record ModelVersion : Type := mkModelVersion {
  mv_name : string;
  mv_version : Z;
  mv_status : string
}.

Record Experiment : Type := mkExperiment {
  experiment_id : string;
  experiment_name_of : string
}.

(** ** Requests issued by the script

    One constructor per kind of request.  Where the answer decides what
    the script does next (environment variable, experiment lookup,
    version search, version lookup) the event records the answer too. *)
Inductive Event : Type :=
| EvGetenv (key : string) (value : option string)
| EvPathExists (path : string) (answer : bool)
| EvMakedirs (path : string)
| EvNow (timestamp : Z)
| EvLocal (what : string)
| EvSetTrackingUri (uri : string)
| EvGetExperimentByName (name : string) (reply : Result (option Experiment))
| EvCreateExperiment (name artifact_location : string)
| EvSetExperiment (name : string)
| EvStartRun (run_name : string) (tags : list (string * string))
| EvEndRun (status : string)
| EvLogMetric (key : string)
| EvLogModel (artifact_path : string)
| EvRegisterModel (model_uri name : string)
| EvSearchModelVersions (filter_string : string) (reply : Result (list ModelVersion))
| EvUpdateModelVersion (name : string) (version : Z) (description : string)
| EvGetModelVersion (name : string) (version : Z) (reply : Result ModelVersion)
| EvTransition (name : string) (version : Z) (stage : string)
| EvPrint (line : string)
| EvLog (level message : string)
| EvSleep (seconds : Z).

(** ** The environment

    [env_raises ev] is the exception, if any, with which the outside
    world answers a request that returns nothing.  Version lookups are
    the one request the script repeats with the same arguments, so
    their answer also depends on how many lookups were made before. *)
Record Env : Type := mkEnv {
  env_getenv : string -> option string;
  env_path_exists : string -> bool;
  env_now : Z;
  env_raises : Event -> option PyExc;
  env_get_experiment_by_name : string -> Result (option Experiment);
  env_create_experiment : string -> string -> Result string;
  env_start_run : string -> Result string;
  env_search_model_versions : string -> Result (list ModelVersion);
  env_get_model_version : nat -> string -> Z -> Result ModelVersion
}.

(** The state threaded through the script: the requests issued so far,
    oldest first, and the number of version lookups among them. *)
Record World : Type := mkWorld {
  trace : list Event;
  lookups : nat
}.

Definition initial_world : World := mkWorld [] 0.

Definition record (ev : Event) (w : World) : World :=
  mkWorld (trace w ++ [ev]) (lookups w).

(** ** The monad *)
Definition M (A : Type) : Type := Env -> World -> Result A * World.

Definition ret {A} (a : A) : M A := fun _ w => (Returned a, w).

Definition raise {A} (e : PyExc) : M A := fun _ w => (Raised e, w).

Definition bind {A B} (m : M A) (k : A -> M B) : M B :=
  fun env w =>
    match m env w with
    | (Returned a, w') => k a env w'
    | (Raised e, w') => (Raised e, w')
    end.

(** [try: body / except Exception as e: handler(e)] *)
Definition try_except (body : M unit) (handler : PyExc -> M unit) : M unit :=
  fun env w =>
    match body env w with
    | (Returned a, w') => (Returned a, w')
    | (Raised e, w') => handler e env w'
    end.

Definition lift {A} (r : Result A) : M A := fun _ w => (r, w).

Declare Scope py_scope.
Delimit Scope py_scope with py.
Notation "x <- c ;; k" := (bind c (fun x => k))
  (at level 100, c at next level, right associativity) : py_scope.
Notation "c ;; k" := (bind c (fun _ => k))
  (at level 100, right associativity) : py_scope.
Open Scope py_scope.

(** ** Primitive requests *)

(** A request that returns nothing and always succeeds: a printed
    line, a log record, a sleep, a local setting. *)
Definition emit (ev : Event) : M unit :=
  fun _ w => (Returned tt, record ev w).

(** A request that returns nothing and that the outside world may
    answer with an exception.  The request is issued either way. *)
Definition request (ev : Event) : M unit :=
  fun env w =>
    match env_raises env ev with
    | None => (Returned tt, record ev w)
    | Some e => (Raised e, record ev w)
    end.

Definition print (line : string) : M unit := emit (EvPrint line).
Definition time_sleep (seconds : Z) : M unit := emit (EvSleep seconds).
Definition logger_info (message : string) : M unit := emit (EvLog "INFO" message).
Definition logger_error (message : string) : M unit := emit (EvLog "ERROR" message).

(** [client.get_model_version(name=..., version=...)] *)
Definition get_model_version (name : string) (version : Z) : M ModelVersion :=
  fun env w =>
    let reply := env_get_model_version env (lookups w) name version in
    (reply,
     mkWorld (trace w ++ [EvGetModelVersion name version reply]) (S (lookups w))).

(** [client.transition_model_version_stage(name=..., version=..., stage=...)] *)
Definition transition_model_version_stage (name : string) (version : Z)
    (stage : string) : M unit :=
  request (EvTransition name version stage).

(** ** [wait_model_transition] (sample.py, lines 27-42)

    The body of [for _ in range(10)], with [attempts] iterations left.
    The [break] after the transition is the branch that does not
    recurse; [time.sleep(1)] is the last statement of the body and is
    reached whenever the status was not READY. *)
Fixpoint wait_model_transition_loop (attempts : nat) (model_name : string)
    (model_version : Z) (stage : string) : M unit :=
  match attempts with
  | O => ret tt
  | S attempts' =>
      model_version_details <- get_model_version model_name model_version ;;
      status <- lift (ModelVersionStatus.from_string (mv_status model_version_details)) ;;
      print ("Model status: " ++ ModelVersionStatus.to_string status) ;;
      if ModelVersionStatus.eqb status READY
      then transition_model_version_stage model_name model_version stage
      else (time_sleep 1 ;;
            wait_model_transition_loop attempts' model_name model_version stage)
  end.

(** [client = MlflowClient()] builds a handle and sends nothing. *)
Definition wait_model_transition (model_name : string) (model_version : Z)
    (stage : string) : M unit :=
  wait_model_transition_loop 10 model_name model_version stage.

(** ** Library functions used by [main] *)

(** [str(n)] for an integer. *)
Definition str_int (n : Z) : string := NilZero.string_of_int (Z.to_int n).

(** [posixpath.join]: a component that starts with the separator
    replaces what came before; otherwise it is appended, with a
    separator unless the path so far is empty or already ends in one. *)
Fixpoint ends_with_sep (s : string) : bool :=
  match s with
  | EmptyString => false
  | String c EmptyString => Ascii.eqb c "/"
  | String _ rest => ends_with_sep rest
  end.

Definition join_step (path b : string) : string :=
  if prefix "/" b then b
  else if (String.eqb path "" || ends_with_sep path)%bool then (path ++ b)%string
  else (path ++ "/" ++ b)%string.

Definition os_path_join (a : string) (p : list string) : string :=
  fold_left join_step p a.

(** [os.getenv(key)] *)
Definition os_getenv (key : string) : M (option string) :=
  fun env w =>
    let value := env_getenv env key in
    (Returned value, record (EvGetenv key value) w).

(** [os.path.join] applied to the result of [os.getenv]: [None] is not
    a path and raises [TypeError]. *)
Definition os_path_join_env (a : option string) (p : list string) : M string :=
  match a with
  | Some a => ret (os_path_join a p)
  | None =>
      raise (mkExc "TypeError"
               "expected str, bytes or os.PathLike object, not NoneType")
  end.

(** [os.path.exists(path)] *)
Definition os_path_exists (path : string) : M bool :=
  fun env w =>
    let answer := env_path_exists env path in
    (Returned answer, record (EvPathExists path answer) w).

Definition os_makedirs (path : string) : M unit := request (EvMakedirs path).

(** [int(datetime.datetime.now().timestamp())] *)
Definition now_timestamp : M Z :=
  fun env w => (Returned (env_now env), record (EvNow (env_now env)) w).

(** A step of the dataset, pandas or scikit-learn work: its value never
    reaches a registry argument, so only its name and whether it raises
    are kept.  Each call of [main] has a name of its own, so that the
    environment can fail any one of them. *)
Definition local (what : string) : M unit := request (EvLocal what).

(** The text in which the client holds a version number. *)
Definition version_text (version : Z) : string := str_int version.

(** One step of [max]: the item replaces the largest so far when it is
    greater, and versions being text, greater means later in the order
    of strings, character by character. *)
Definition text_max (largest item : Z) : Z :=
  if String.ltb (version_text largest) (version_text item) then item else largest.

(** [max(versions)]: the first of the largest elements in the order of
    their texts, [ValueError] on an empty list. *)
Definition py_max (versions : list Z) : Result Z :=
  match versions with
  | [] => Raised (mkExc "ValueError" "max() arg is an empty sequence")
  | v :: rest => Returned (fold_left text_max rest v)
  end.

(** [obj.experiment_id] where [obj] may be [None]. *)
Definition getattr_experiment_id (obj : option Experiment) : Result string :=
  match obj with
  | Some experiment => Returned (experiment_id experiment)
  | None =>
      Raised (mkExc "AttributeError"
                "'NoneType' object has no attribute 'experiment_id'")
  end.

(** ** MLflow requests of [main] *)

Definition set_tracking_uri (uri : string) : M unit := emit (EvSetTrackingUri uri).

Definition get_experiment_by_name (name : string) : M (option Experiment) :=
  fun env w =>
    let reply := env_get_experiment_by_name env name in
    (reply, record (EvGetExperimentByName name reply) w).

Definition create_experiment (name artifact_location : string) : M string :=
  fun env w =>
    (env_create_experiment env name artifact_location,
     record (EvCreateExperiment name artifact_location) w).

Definition set_experiment (name : string) : M unit := request (EvSetExperiment name).

Definition log_metric (key : string) : M unit := request (EvLogMetric key).

Definition log_model (artifact_path : string) : M unit :=
  request (EvLogModel artifact_path).

Definition register_model (model_uri name : string) : M unit :=
  request (EvRegisterModel model_uri name).

Definition search_model_versions (filter_string : string) : M (list ModelVersion) :=
  fun env w =>
    let reply := env_search_model_versions env filter_string in
    (reply, record (EvSearchModelVersions filter_string reply) w).

Definition update_model_version (name : string) (version : Z)
    (description : string) : M unit :=
  request (EvUpdateModelVersion name version description).

(** [with mlflow.start_run(run_name=..., tags=...) as run: body]: the
    run is ended as FINISHED when the body returns and as FAILED when it
    raises, and the exception is raised again. *)
Definition with_start_run {A} (run_name : string) (tags : list (string * string))
    (body : string -> M A) : M A :=
  fun env w =>
    let w0 := record (EvStartRun run_name tags) w in
    match env_start_run env run_name with
    | Raised e => (Raised e, w0)
    | Returned run_id =>
        match body run_id env w0 with
        | (Returned a, w') => (Returned a, record (EvEndRun "FINISHED") w')
        | (Raised e, w') => (Raised e, record (EvEndRun "FAILED") w')
        end
    end.

(** ** [main] (sample.py, lines 45-164)

    [main] is one function in the source; it is cut here into three
    consecutive blocks so that the state reached between them can be
    named. *)

Definition user : string := "Pouria".
Definition artifact_name : string := "clf-model".
Definition tracking_uri : string := "http://localhost:5001".
Definition output_test_data : string := "test.csv".
Definition experiment_name : string := "my-experiment".

(** Lines 46-143: paths, data, pipeline, experiment, and the run that
    trains, logs and registers the model.  Returns [artifact_path], the
    one local that the rest of [main] reads.  The logger is set to
    DEBUG, so every record is emitted; [MlflowClient()] (line 94) and
    the reassignment of [model.predict] (line 131) send nothing. *)
Definition main_train_and_register : M string :=
  (* lines 49-55 *)
  timestamp <- now_timestamp ;;
  let run_name := str_int timestamp in
  home <- os_getenv "HOME" ;;
  artifact_path <- os_path_join_env home ["mlflow_artifacts"; "clf-model"] ;;
  present <- os_path_exists artifact_path ;;
  (if negb present then os_makedirs artifact_path else ret tt) ;;
  (* lines 60-88 *)
  local "load_breast_cancer" ;;                  (* line 60 *)
  local "DataFrame" ;;                           (* lines 61-62 *)
  local "train_test_split(df)" ;;                (* lines 65-66 *)
  local ("to_csv " ++ output_test_data) ;;       (* line 67 *)
  local "train_test_split(x_raw, y_raw)" ;;      (* lines 69-77 *)
  local "Pipeline" ;;                            (* lines 80-88 *)
  (* lines 91-109 *)
  set_tracking_uri tracking_uri ;;
  mlf_experiment <- get_experiment_by_name experiment_name ;;
  match mlf_experiment with
  | None =>
      experiment_id <- create_experiment experiment_name
                         (os_path_join artifact_path [experiment_name]) ;;
      ret tt
  | Some _ => ret tt
  end ;;
  ready_id <- lift (getattr_experiment_id mlf_experiment) ;;
  logger_info ("mlflow experiment id " ++ ready_id ++ " is ready to use") ;;
  set_experiment experiment_name ;;
  (* lines 111-143 *)
  logger_info "mlflow starting" ;;
  with_start_run ("test" ++ run_name)
    [("env", "stg"); ("state", "pre-publish"); ("mlflow.user", user)]
    (fun run_num =>
       local "fit" ;;                            (* line 117 *)
       local "score(x_train, y_train)" ;;        (* line 120 *)
       local "score(x_test, y_test)" ;;          (* line 121 *)
       let model_uri := ("runs:/" ++ run_num ++ "/" ++ artifact_path)%string in
       log_metric "accuracy_train" ;;
       log_metric "accuracy_test" ;;
       log_model artifact_path ;;
       register_model model_uri artifact_name) ;;
  ret artifact_path.

(** Lines 146-154: the latest version under the queried name, and its
    description.  Returns [new_model_version]. *)
Definition main_describe_latest (artifact_path : string) : M Z :=
  model_version_infos <- search_model_versions ("name = '" ++ artifact_path ++ "'") ;;
  new_model_version <- lift (py_max (map mv_version model_version_infos)) ;;
  update_model_version artifact_path new_model_version
    "Random forest scikit-learn model with 100 decision trees." ;;
  ret new_model_version.

(** Lines 157-164: the previous version, [int(new_model_version) - 1],
    to "None" inside [try], then the new version to "Staging" outside
    it.  [new_model_version] is the number whose text line 147 chose, so
    [int] of that text is the number itself. *)
Definition main_promote (artifact_path : string) (new_model_version : Z) : M unit :=
  try_except
    (wait_model_transition artifact_path (new_model_version - 1) "None")
    (fun e => logger_error ("wait_model_transition got exception " ++ str_exc e)) ;;
  wait_model_transition artifact_path new_model_version "Staging".

Definition main : M unit :=
  artifact_path <- main_train_and_register ;;
  new_model_version <- main_describe_latest artifact_path ;;
  main_promote artifact_path new_model_version.

(** ** Observations on a trace *)

Definition is_transition (ev : Event) : bool :=
  match ev with EvTransition _ _ _ => true | _ => false end.

Definition is_sleep (ev : Event) : bool :=
  match ev with EvSleep _ => true | _ => false end.

Definition is_lookup (ev : Event) : bool :=
  match ev with EvGetModelVersion _ _ _ => true | _ => false end.

Definition is_update (ev : Event) : bool :=
  match ev with EvUpdateModelVersion _ _ _ => true | _ => false end.

Definition count (p : Event -> bool) (evs : list Event) : nat :=
  List.length (filter p evs).

(** The status seen by a version lookup, when it succeeded and the
    status string was a known one. *)
Definition observed_status (reply : Result ModelVersion) : option Status :=
  match reply with
  | Returned details =>
      match ModelVersionStatus.from_string (mv_status details) with
      | Returned s => Some s
      | Raised _ => None
      end
  | Raised _ => None
  end.

(** ** Concrete environments

    Used to run the model on the scenarios of the specification. *)

Definition version_not_found (name : string) (version : Z) : PyExc :=
  mkExc "MlflowException"
    ("Model Version (name=" ++ name ++ ", version=" ++ str_int version ++ ") not found").

(** Lookups answered from a script: the n-th lookup reports the n-th
    status of the list, and the version is unknown once the script is
    used up. *)
Definition scripted (statuses : list Status) (n : nat) (name : string)
    (version : Z) : Result ModelVersion :=
  match nth_error statuses n with
  | Some s => Returned (mkModelVersion name version (ModelVersionStatus.to_string s))
  | None => Raised (version_not_found name version)
  end.

(** Lookups answered by a registry in which only the versions from 1 up
    exist, all of them READY. *)
Definition ready_from_one (n : nat) (name : string) (version : Z) : Result ModelVersion :=
  if version <? 1 then Raised (version_not_found name version)
  else Returned (mkModelVersion name version "READY").

(** A server on which nothing fails: HOME is set, the experiment
    exists unless [fresh], and the search finds [found]. *)
Definition server (fresh : bool) (found : list ModelVersion)
    (lookup : nat -> string -> Z -> Result ModelVersion) : Env :=
  mkEnv
    (fun _ => Some "/home/user")
    (fun _ => true)
    1700000000
    (fun _ => None)
    (fun name => if fresh then Returned None
                 else Returned (Some (mkExperiment "1" name)))
    (fun _ _ => Returned "1")
    (fun _ => Returned "run-1")
    (fun _ => Returned found)
    lookup.

(** The artifact path when HOME is "/home/user". *)
Definition demo_path : string := "/home/user/mlflow_artifacts/clf-model".

(** The first registration ever: the search finds version 1, and the
    lookup of version 0 fails. *)
Definition first_registration : Env :=
  server false [mkModelVersion demo_path 1 "READY"] ready_from_one.

(** A tracking server that does not know the experiment yet. *)
Definition fresh_server : Env :=
  server true [mkModelVersion demo_path 1 "READY"] ready_from_one.

(** A registry whose search finds nothing under the queried name. *)
Definition nothing_found : Env := server false [] ready_from_one.

(** A registry on which every version lookup fails. *)
Definition no_lookup : Env :=
  server false [mkModelVersion demo_path 1 "READY"] (scripted []).

(** The lookups numbered [first], [first + 1], ... for this name and
    version all succeed and report [statuses], in this order. *)
Fixpoint answers (env : Env) (first : nat) (name : string) (version : Z)
    (statuses : list Status) : bool :=
  match statuses with
  | [] => true
  | s :: rest =>
      match observed_status (env_get_model_version env first name version) with
      | Some s' => ModelVersionStatus.eqb s' s
      | None => false
      end && answers env (S first) name version rest
  end.

Definition not_ready (s : Status) : bool := negb (ModelVersionStatus.eqb s READY).

(** A version lookup that succeeded and saw a status other than READY. *)
Definition saw_not_ready (ev : Event) : bool :=
  match ev with
  | EvGetModelVersion _ _ reply =>
      match observed_status reply with
      | Some s => not_ready s
      | None => false
      end
  | _ => false
  end.

(** The state right after a version lookup answered with [reply]. *)
Definition after_lookup (name : string) (version : Z) (reply : Result ModelVersion)
    (w : World) : World :=
  mkWorld (trace w ++ [EvGetModelVersion name version reply]) (S (lookups w)).

(** ** The shape of one polling call

    [poll_events name version stage n evs]: [evs] is a sequence of
    events that a loop with [n] attempts left can produce.  Each
    attempt that sees a status other than READY contributes a lookup, a
    printed line and a sleep; the sequence ends with the budget used
    up, with a lookup that raised, with an unknown status string, or
    with the READY attempt and its transition. *)
Inductive poll_events (name : string) (version : Z) (stage : string) :
    nat -> list Event -> Prop :=
| poll_exhausted :
    poll_events name version stage 0 []
| poll_lookup_raised n e :
    poll_events name version stage (S n) [EvGetModelVersion name version (Raised e)]
| poll_status_unknown n details :
    observed_status (Returned details) = None ->
    poll_events name version stage (S n)
      [EvGetModelVersion name version (Returned details)]
| poll_ready n details :
    observed_status (Returned details) = Some READY ->
    poll_events name version stage (S n)
      [EvGetModelVersion name version (Returned details);
       EvPrint "Model status: READY";
       EvTransition name version stage]
| poll_retry n details s evs :
    observed_status (Returned details) = Some s ->
    not_ready s = true ->
    poll_events name version stage n evs ->
    poll_events name version stage (S n)
      (EvGetModelVersion name version (Returned details)
         :: EvPrint ("Model status: " ++ ModelVersionStatus.to_string s)
         :: EvSleep 1 :: evs).

(** ** Trace specifications

    [emits env P m Q]: run in [env] from any state, [m] only adds events
    that satisfy [P], and a returned value satisfies [Q]. *)
Definition emits (env : Env) (P : Event -> Prop) {A : Type} (m : M A)
    (Q : A -> Prop) : Prop :=
  forall w,
    exists evs,
      trace (snd (m env w)) = trace w ++ evs /\
      Forall P evs /\
      match fst (m env w) with
      | Returned a => Q a
      | Raised _ => True
      end.

(** [raises_in env m]: run in [env], [m] never returns normally. *)
Definition raises_in (env : Env) {A : Type} (m : M A) : Prop :=
  forall w, exists e w', m env w = (Raised e, w').

(** The registry name carried by each registry request: [registered]
    for the registration, [queried] for the search filter, the
    description update, the lookups and the transitions. *)
Definition names_registry (registered queried : string) (ev : Event) : Prop :=
  match ev with
  | EvRegisterModel _ name => name = registered
  | EvSearchModelVersions filter_string _ =>
      filter_string = ("name = '" ++ queried ++ "'")%string
  | EvUpdateModelVersion name _ _ => name = queried
  | EvGetModelVersion name _ _ => name = queried
  | EvTransition name _ _ => name = queried
  | _ => True
  end.

(** An event that is neither a description update nor part of a
    stage-transition poll. *)
Definition before_promotion (ev : Event) : Prop :=
  is_update ev = false /\ is_lookup ev = false /\ is_transition ev = false.

(** The events of lines 46-141: everything [main] does before it
    registers the model. *)
Definition setup_event (ev : Event) : bool :=
  match ev with
  | EvRegisterModel _ _ | EvSearchModelVersions _ _ | EvUpdateModelVersion _ _ _
  | EvGetModelVersion _ _ _ | EvTransition _ _ _ | EvPrint _ | EvSleep _ => false
  | _ => true
  end.

Definition is_set_experiment (ev : Event) : bool :=
  match ev with EvSetExperiment _ => true | _ => false end.

Definition is_create_experiment (ev : Event) : bool :=
  match ev with EvCreateExperiment _ _ => true | _ => false end.

(** ** Further observations and environments *)

Definition is_print (ev : Event) : bool :=
  match ev with EvPrint _ => true | _ => false end.

(** The requests one polling call for [name], [version] and [stage] may
    issue: lookups of that version, printed lines, one-second sleeps and
    the transition of that version to that stage. *)
Definition poll_event (name : string) (version : Z) (stage : string)
    (ev : Event) : Prop :=
  match ev with
  | EvGetModelVersion n v _ => n = name /\ v = version
  | EvPrint _ => True
  | EvSleep seconds => seconds = 1
  | EvTransition n v s => n = name /\ v = version /\ s = stage
  | _ => False
  end.

(** The requests of lines 157-164: those of the poll of the previous
    version towards "None", those of the poll of the new version
    towards "Staging", and the error record of the handler. *)
Definition promote_event (artifact_path : string) (new_model_version : Z)
    (ev : Event) : Prop :=
  poll_event artifact_path (new_model_version - 1) "None" ev \/
  poll_event artifact_path new_model_version "Staging" ev \/
  exists message, ev = EvLog "ERROR" message.

(** A transition to "Staging", of any version. *)
Definition is_staging (ev : Event) : bool :=
  match ev with
  | EvTransition _ _ stage => String.eqb stage "Staging"
  | _ => false
  end.


(** The requests of lines 60-109 when the experiment was found, and
    those of the body of the run, lines 117-143. *)
Definition found_experiment_events (found : Experiment) : list Event :=
  [EvLocal "load_breast_cancer"; EvLocal "DataFrame";
   EvLocal "train_test_split(df)"; EvLocal "to_csv test.csv";
   EvLocal "train_test_split(x_raw, y_raw)"; EvLocal "Pipeline";
   EvSetTrackingUri tracking_uri;
   EvGetExperimentByName experiment_name (Returned (Some found));
   EvLog "INFO" ("mlflow experiment id " ++ experiment_id found ++ " is ready to use");
   EvSetExperiment experiment_name;
   EvLog "INFO" "mlflow starting"].

Definition run_events (run_name run_id artifact_path : string) : list Event :=
  [EvStartRun run_name
     [("env", "stg"); ("state", "pre-publish"); ("mlflow.user", user)];
   EvLocal "fit"; EvLocal "score(x_train, y_train)"; EvLocal "score(x_test, y_test)";
   EvLogMetric "accuracy_train"; EvLogMetric "accuracy_test";
   EvLogModel artifact_path;
   EvRegisterModel ("runs:/" ++ run_id ++ "/" ++ artifact_path) artifact_name;
   EvEndRun "FINISHED"].

(** Lookups that report a status string outside the enumeration. *)
Definition garbled (n : nat) (name : string) (version : Z) : Result ModelVersion :=
  Returned (mkModelVersion name version "DELETED").

(** Lookups that find every version READY. *)
Definition always_ready (n : nat) (name : string) (version : Z) : Result ModelVersion :=
  Returned (mkModelVersion name version "READY").

Definition transition_refused : PyExc :=
  mkExc "MlflowException" "Invalid Model Version stage".

(** A registry that answers lookups from [lookup] and refuses every
    stage transition. *)
Definition refusing_transitions
    (lookup : nat -> string -> Z -> Result ModelVersion) : Env :=
  mkEnv
    (fun _ => Some "/home/user")
    (fun _ => true)
    1700000000
    (fun ev => if is_transition ev then Some transition_refused else None)
    (fun name => Returned (Some (mkExperiment "1" name)))
    (fun _ _ => Returned "1")
    (fun _ => Returned "run-1")
    (fun _ => Returned [mkModelVersion demo_path 1 "READY"])
    lookup.

(** A process without HOME in its environment. *)
Definition no_home : Env :=
  mkEnv
    (fun _ => None)
    (fun _ => true)
    1700000000
    (fun _ => None)
    (fun name => Returned (Some (mkExperiment "1" name)))
    (fun _ _ => Returned "1")
    (fun _ => Returned "run-1")
    (fun _ => Returned [mkModelVersion demo_path 1 "READY"])
    ready_from_one.

(** A later registration: versions 1, 3 and 2 are found, all READY. *)
Definition later_registration : Env :=
  server false
    [mkModelVersion demo_path 1 "READY"; mkModelVersion demo_path 3 "READY";
     mkModelVersion demo_path 2 "READY"]
    always_ready.

(** A registration whose version stays pending for good. *)
Definition never_ready : Env :=
  server false [mkModelVersion demo_path 1 "PENDING_REGISTRATION"]
    (fun n name version =>
       if version <? 1 then Raised (version_not_found name version)
       else Returned (mkModelVersion name version "PENDING_REGISTRATION")).

Definition fit_failed : PyExc := mkExc "ValueError" "Input contains NaN".

(** A run in which fitting the pipeline raises. *)
Definition failing_fit : Env :=
  mkEnv
    (fun _ => Some "/home/user")
    (fun _ => false)
    1700000000
    (fun ev => match ev with
               | EvLocal "fit" => Some fit_failed
               | _ => None
               end)
    (fun name => Returned (Some (mkExperiment "1" name)))
    (fun _ _ => Returned "1")
    (fun _ => Returned "run-1")
    (fun _ => Returned [mkModelVersion demo_path 1 "READY"])
    ready_from_one.

(** The tenth registration: the search finds versions 8, 9 and 10,
    all READY. *)
Definition tenth_registration : Env :=
  server false
    [mkModelVersion demo_path 8 "READY"; mkModelVersion demo_path 9 "READY";
     mkModelVersion demo_path 10 "READY"]
    always_ready.



Definition request_failed : PyExc := mkExc "MlflowException" "API request failed".

(** A run in which logging the first metric raises. *)
Definition failing_metric : Env :=
  mkEnv
    (fun _ => Some "/home/user")
    (fun _ => true)
    1700000000
    (fun ev => match ev with
               | EvLogMetric "accuracy_train" => Some request_failed
               | _ => None
               end)
    (fun name => Returned (Some (mkExperiment "1" name)))
    (fun _ _ => Returned "1")
    (fun _ => Returned "run-1")
    (fun _ => Returned [mkModelVersion demo_path 1 "READY"])
    ready_from_one.

(** * Properties *)

(** ** Lists, counting and statuses *)

Lemma count_app (p : Event -> bool) (a b : list Event) :
  count p (a ++ b) = (count p a + count p b)%nat.
Proof. unfold count. now rewrite filter_app, length_app. Qed.

Lemma count_zero_Forall (p : Event -> bool) (evs : list Event) :
  Forall (fun ev => p ev = false) evs -> count p evs = 0%nat.
Proof.
  unfold count. induction 1 as [|ev evs Hev _ IH]; cbn; [reflexivity|].
  now rewrite Hev.
Qed.

Lemma cons_eq_app {A : Type} (x y : A) (l a b : list A) :
  x :: l = a ++ y :: b ->
  (a = [] /\ x = y /\ l = b) \/ (exists a', a = x :: a' /\ l = a' ++ y :: b).
Proof.
  destruct a as [|x' a']; cbn; intros H; inversion H; subst.
  - left. auto.
  - right. eauto.
Qed.

Lemma from_string_to_string (s : Status) :
  ModelVersionStatus.from_string (ModelVersionStatus.to_string s) = Returned s.
Proof. destruct s; reflexivity. Qed.

Lemma status_eqb_eq (a b : Status) : ModelVersionStatus.eqb a b = true <-> a = b.
Proof. destruct a, b; cbn; split; intros H; try reflexivity; discriminate H. Qed.

Lemma not_ready_eqb (s : Status) :
  not_ready s = true -> ModelVersionStatus.eqb s READY = false.
Proof. unfold not_ready. now destruct (ModelVersionStatus.eqb s READY). Qed.

Lemma observed_status_inv (details : ModelVersion) (s : Status) :
  observed_status (Returned details) = Some s ->
  ModelVersionStatus.from_string (mv_status details) = Returned s.
Proof.
  unfold observed_status.
  destruct (ModelVersionStatus.from_string (mv_status details)); congruence.
Qed.

Lemma trace_record (ev : Event) (w : World) : trace (record ev w) = trace w ++ [ev].
Proof. reflexivity. Qed.

Lemma trace_after_lookup name version reply (w : World) :
  trace (after_lookup name version reply w)
  = trace w ++ [EvGetModelVersion name version reply].
Proof. reflexivity. Qed.

(** ** One iteration of the polling loop *)

Section Polling.

Variables (env : Env) (name : string) (version : Z) (stage : string).

Let loop (n : nat) : World -> Result unit * World :=
  wait_model_transition_loop n name version stage env.

Lemma loop_lookup_raised (n : nat) (w : World) (e : PyExc) :
  env_get_model_version env (lookups w) name version = Raised e ->
  loop (S n) w = (Raised e, after_lookup name version (Raised e) w).
Proof.
  intros H. unfold loop, after_lookup. cbn. unfold bind, get_model_version.
  now rewrite H.
Qed.

Lemma loop_status_unknown (n : nat) (w : World) (details : ModelVersion) :
  env_get_model_version env (lookups w) name version = Returned details ->
  observed_status (Returned details) = None ->
  exists e, loop (S n) w = (Raised e, after_lookup name version (Returned details) w).
Proof.
  intros H Hs. unfold loop, after_lookup. cbn. unfold bind, get_model_version, lift.
  rewrite H. unfold observed_status in Hs.
  destruct (ModelVersionStatus.from_string (mv_status details)) as [s|e];
    [discriminate Hs|]. now exists e.
Qed.

Lemma loop_ready (n : nat) (w : World) (details : ModelVersion) :
  env_get_model_version env (lookups w) name version = Returned details ->
  observed_status (Returned details) = Some READY ->
  loop (S n) w
  = request (EvTransition name version stage) env
      (record (EvPrint "Model status: READY")
         (after_lookup name version (Returned details) w)).
Proof.
  intros H Hs. apply observed_status_inv in Hs.
  unfold loop, after_lookup. cbn. unfold bind, get_model_version, lift.
  rewrite H, Hs. reflexivity.
Qed.

Lemma loop_retry (n : nat) (w : World) (details : ModelVersion) (s : Status) :
  env_get_model_version env (lookups w) name version = Returned details ->
  observed_status (Returned details) = Some s ->
  not_ready s = true ->
  loop (S n) w
  = loop n
      (record (EvSleep 1)
         (record (EvPrint ("Model status: " ++ ModelVersionStatus.to_string s))
            (after_lookup name version (Returned details) w))).
Proof.
  intros H Hs Hn. apply observed_status_inv in Hs. apply not_ready_eqb in Hn.
  unfold loop, after_lookup. cbn. unfold bind, get_model_version, lift.
  rewrite H, Hs. cbn. rewrite Hn. reflexivity.
Qed.

Lemma request_trace (ev : Event) (w : World) :
  trace (snd (request ev env w)) = trace w ++ [ev].
Proof. unfold request. now destruct (env_raises env ev). Qed.

(** Every run of the loop produces a sequence of the shape
    [poll_events]. *)
Lemma loop_events (n : nat) :
  forall w, exists evs,
    trace (snd (loop n w)) = trace w ++ evs /\
    poll_events name version stage n evs.
Proof.
  induction n as [|n IH]; intros w.
  - exists []. cbn. rewrite app_nil_r. split; [reflexivity|constructor].
  - destruct (env_get_model_version env (lookups w) name version)
      as [details|e] eqn:Hreply.
    + destruct (observed_status (Returned details)) as [s|] eqn:Hs.
      * destruct (not_ready s) eqn:Hn.
        -- rewrite (loop_retry n w details s Hreply Hs Hn).
           destruct (IH (record (EvSleep 1)
                       (record (EvPrint ("Model status: "
                                           ++ ModelVersionStatus.to_string s))
                          (after_lookup name version (Returned details) w))))
             as [evs [Ht Hp]].
           eexists. split; [|eapply poll_retry; eassumption].
           rewrite Ht. rewrite !trace_record, trace_after_lookup.
           rewrite <- !app_assoc. reflexivity.
        -- assert (s = READY) as ->.
           { unfold not_ready in Hn. apply status_eqb_eq.
             now destruct (ModelVersionStatus.eqb s READY). }
           rewrite (loop_ready n w details Hreply Hs).
           eexists. split; [|eapply poll_ready; eassumption].
           rewrite request_trace, trace_record, trace_after_lookup.
           rewrite <- !app_assoc. reflexivity.
      * destruct (loop_status_unknown n w details Hreply Hs) as [e He].
        rewrite He. eexists. split; [|eapply poll_status_unknown; eassumption].
        reflexivity.
    + rewrite (loop_lookup_raised n w e Hreply).
      eexists. split; [|eapply poll_lookup_raised]. reflexivity.
Qed.

End Polling.

(** ** What a sequence of the shape [poll_events] looks like *)

(** Peel the first element off an equation [x :: l = a ++ y :: b]. *)
Ltac peel H :=
  let a' := fresh "a" in
  apply cons_eq_app in H;
  destruct H as [(-> & H & ?) | (a' & -> & H)];
  [try discriminate H | idtac].

Ltac empty_app :=
  match goal with
  | H : [] = ?a ++ _ :: _ |- _ => destruct a; discriminate H
  end.

Section PollEvents.

Variables (name : string) (version : Z) (stage : string).

Lemma poll_sleeps_bound (n : nat) (evs : list Event) :
  poll_events name version stage n evs -> (count is_sleep evs <= n)%nat.
Proof.
  induction 1; cbn; try lia.
  unfold count in *. cbn. lia.
Qed.

Lemma poll_sleeps_count (n : nat) (evs : list Event) :
  poll_events name version stage n evs ->
  count is_sleep evs = count saw_not_ready evs.
Proof.
  induction 1 as [ | n e | n d Hs | n d Hs | n d s evs Hs Hn _ IH ];
    unfold count in *; cbn [filter is_sleep saw_not_ready List.length].
  - reflexivity.
  - reflexivity.
  - now rewrite Hs.
  - now rewrite Hs.
  - rewrite Hs, Hn. cbn. now rewrite IH.
Qed.

Lemma poll_transitions_count (n : nat) (evs : list Event) :
  poll_events name version stage n evs -> (count is_transition evs <= 1)%nat.
Proof.
  induction 1; unfold count in *; cbn; lia.
Qed.

(** A transition is the last event, carries the arguments of the
    call, and follows the lookup that saw READY and its printed line. *)
Lemma poll_transition_last (n : nat) (evs : list Event) :
  poll_events name version stage n evs ->
  forall a b nm v st,
    evs = a ++ EvTransition nm v st :: b ->
    b = [] /\ nm = name /\ v = version /\ st = stage /\
    exists a' reply,
      a = a' ++ [EvGetModelVersion name version reply;
                 EvPrint "Model status: READY"] /\
      observed_status reply = Some READY.
Proof.
  induction 1 as [ | n e | n d Hs | n d Hs | n d s evs Hs Hn _ IH ];
    intros a b nm v st E.
  - empty_app.
  - peel E. empty_app.
  - peel E. empty_app.
  - peel E. peel E. peel E.
    + inversion E; subst. repeat split; try reflexivity.
      exists [], (Returned d). split; [reflexivity|assumption].
    + empty_app.
  - peel E. peel E. peel E.
    destruct (IH _ _ _ _ _ E) as (-> & -> & -> & -> & a' & reply & -> & Hr).
    repeat split; try reflexivity.
    exists (EvGetModelVersion name version (Returned d)
              :: EvPrint ("Model status: " ++ ModelVersionStatus.to_string s)
              :: EvSleep 1 :: a'), reply.
    split; [reflexivity|assumption].
Qed.

(** A sleep follows the lookup of an attempt that did not see READY,
    and its printed line. *)
Lemma poll_sleep_preceded (n : nat) (evs : list Event) :
  poll_events name version stage n evs ->
  forall a b secs,
    evs = a ++ EvSleep secs :: b ->
    exists a' reply s,
      a = a' ++ [EvGetModelVersion name version reply;
                 EvPrint ("Model status: " ++ ModelVersionStatus.to_string s)] /\
      observed_status reply = Some s /\ not_ready s = true.
Proof.
  induction 1 as [ | n e | n d Hs | n d Hs | n d s evs Hs Hn _ IH ];
    intros a b secs E.
  - empty_app.
  - peel E. empty_app.
  - peel E. empty_app.
  - peel E. peel E. peel E. empty_app.
  - peel E. peel E. peel E.
    + exists [], (Returned d), s. auto.
    + destruct (IH _ _ _ E) as (a' & reply & s' & -> & Hr & Hn').
      exists (EvGetModelVersion name version (Returned d)
                :: EvPrint ("Model status: " ++ ModelVersionStatus.to_string s)
                :: EvSleep 1 :: a'), reply, s'.
      auto.
Qed.

End PollEvents.

(** ** Polling against a known sequence of statuses *)

Lemma observed_status_returned (reply : Result ModelVersion) (s : Status) :
  observed_status reply = Some s -> exists details, reply = Returned details.
Proof. destruct reply as [d|e]; [eauto | discriminate]. Qed.

Section Scripted.

Variables (env : Env) (name : string) (version : Z) (stage : string).

Lemma answers_cons (first : nat) (s : Status) (rest : list Status) :
  answers env first name version (s :: rest) = true ->
  (exists details,
      env_get_model_version env first name version = Returned details /\
      observed_status (Returned details) = Some s) /\
  answers env (S first) name version rest = true.
Proof.
  cbn [answers]. intros H. apply andb_true_iff in H as [H1 H2]. split; [|exact H2].
  destruct (observed_status (env_get_model_version env first name version))
    as [s'|] eqn:Hs; [|discriminate H1].
  apply status_eqb_eq in H1. subst s'.
  destruct (observed_status_returned _ _ Hs) as [d Hd].
  exists d. now rewrite <- Hd.
Qed.

Lemma answers_app (l1 l2 : list Status) :
  forall first,
    answers env first name version (l1 ++ l2) = true ->
    answers env first name version l1 = true /\
    answers env (first + List.length l1) name version l2 = true.
Proof.
  induction l1 as [|s l1 IH]; intros first H.
  - cbn. now rewrite Nat.add_0_r.
  - cbn [app answers] in *. apply andb_true_iff in H as [H1 H2].
    destruct (IH _ H2) as [H3 H4]. rewrite H1, H3. cbn [List.length].
    now rewrite Nat.add_succ_r.
Qed.

(** Attempts that see no READY: each costs one lookup, one printed
    line and one sleep, and the loop goes on with the rest of its
    budget. *)
Lemma loop_pending (pending : list Status) :
  forall n w,
    forallb not_ready pending = true ->
    answers env (lookups w) name version pending = true ->
    exists evs w1,
      wait_model_transition_loop (List.length pending + n) name version stage env w
      = wait_model_transition_loop n name version stage env w1 /\
      trace w1 = trace w ++ evs /\
      lookups w1 = (lookups w + List.length pending)%nat /\
      count is_sleep evs = List.length pending /\
      count is_lookup evs = List.length pending /\
      count is_transition evs = 0%nat.
Proof.
  induction pending as [|s pending IH]; intros n w Hnr Hans.
  - exists [], w. cbn [List.length Nat.add]. rewrite app_nil_r, Nat.add_0_r.
    repeat split; reflexivity.
  - cbn [forallb] in Hnr. apply andb_true_iff in Hnr as [Hs Hnr].
    apply answers_cons in Hans as [(d & Hd & Hobs) Hans].
    cbn [List.length Nat.add].
    rewrite (loop_retry env name version stage _ w d s Hd Hobs Hs).
    set (w0 := record (EvSleep 1) _).
    destruct (IH n w0 Hnr Hans) as (evs & w1 & Heq & Ht & Hl & Hc1 & Hc2 & Hc3).
    exists (EvGetModelVersion name version (Returned d)
              :: EvPrint ("Model status: " ++ ModelVersionStatus.to_string s)
              :: EvSleep 1 :: evs), w1.
    split; [exact Heq|]. split.
    { rewrite Ht. subst w0. rewrite !trace_record, trace_after_lookup.
      now rewrite <- !app_assoc. }
    split. { rewrite Hl. subst w0. cbn. lia. }
    unfold count in *. cbn. rewrite Hc1, Hc2, Hc3. auto.
Qed.

(** READY after [pending] other statuses, within the budget. *)
Lemma wait_ready (pending : list Status) (w : World) :
  forallb not_ready pending = true ->
  (List.length pending < 10)%nat ->
  answers env (lookups w) name version (pending ++ [READY]) = true ->
  exists before,
    wait_model_transition name version stage env w
    = (match env_raises env (EvTransition name version stage) with
       | None => Returned tt
       | Some e => Raised e
       end,
       mkWorld (trace w ++ before ++ [EvTransition name version stage])
         (lookups w + S (List.length pending))) /\
    count is_sleep before = List.length pending /\
    count is_lookup before = S (List.length pending) /\
    count is_transition before = 0%nat.
Proof.
  intros Hnr Hlen Hans. apply answers_app in Hans as [Hans Hready].
  apply answers_cons in Hready as [(d & Hd & Hobs) _].
  unfold wait_model_transition.
  replace 10%nat with (List.length pending + S (9 - List.length pending))%nat by lia.
  destruct (loop_pending pending (S (9 - List.length pending)) w Hnr Hans)
    as (evs & w1 & Heq & Ht & Hl & Hc1 & Hc2 & Hc3).
  rewrite Heq. rewrite <- Hl in Hd.
  rewrite (loop_ready env name version stage _ w1 d Hd Hobs).
  exists (evs ++ [EvGetModelVersion name version (Returned d);
                  EvPrint "Model status: READY"]).
  split.
  - unfold request, record, after_lookup. cbn [trace lookups].
    rewrite Ht, Hl, <- !app_assoc, Nat.add_succ_r. cbn [app].
    now destruct (env_raises env (EvTransition name version stage)).
  - rewrite !count_app, Hc1, Hc2, Hc3. unfold count. cbn. lia.
Qed.

(** Ten attempts, none of which sees READY. *)
Lemma wait_exhausted (statuses : list Status) (w : World) :
  List.length statuses = 10%nat ->
  forallb not_ready statuses = true ->
  answers env (lookups w) name version statuses = true ->
  exists evs w',
    wait_model_transition name version stage env w = (Returned tt, w') /\
    trace w' = trace w ++ evs /\
    count is_sleep evs = 10%nat /\
    count is_lookup evs = 10%nat /\
    count is_transition evs = 0%nat.
Proof.
  intros Hlen Hnr Hans.
  destruct (loop_pending statuses 0 w Hnr Hans)
    as (evs & w1 & Heq & Ht & Hl & Hc1 & Hc2 & Hc3).
  exists evs, w1. unfold wait_model_transition.
  rewrite Hlen in *. cbn [Nat.add] in Heq. rewrite Heq. auto.
Qed.

(** A lookup that raises, after [pending] attempts that saw no READY. *)
Lemma wait_lookup_raises (pending : list Status) (w : World) (e : PyExc) :
  forallb not_ready pending = true ->
  (List.length pending < 10)%nat ->
  answers env (lookups w) name version pending = true ->
  env_get_model_version env (lookups w + List.length pending) name version
  = Raised e ->
  exists w', wait_model_transition name version stage env w = (Raised e, w').
Proof.
  intros Hnr Hlen Hans He. unfold wait_model_transition.
  replace 10%nat with (List.length pending + S (9 - List.length pending))%nat by lia.
  destruct (loop_pending pending (S (9 - List.length pending)) w Hnr Hans)
    as (evs & w1 & Heq & Ht & Hl & _).
  rewrite Heq. rewrite <- Hl in He.
  rewrite (loop_lookup_raised env name version stage _ w1 e He). eauto.
Qed.

End Scripted.

Lemma count_zero_filter (p : Event -> bool) (evs : list Event) :
  count p evs = 0%nat -> filter p evs = [].
Proof. unfold count. apply length_zero_iff_nil. Qed.

(** ** The polling call: claims C1 to C4 and C7 *)

(** C1.  When READY first appears at attempt k with 1 <= k <= 10 and
    every lookup succeeds (the statuses seen before it are [pending],
    none of them READY, so k = length pending + 1), the call issues
    exactly one stage transition, for the requested name, version and
    stage, and that request is the last event of the call: no lookup and
    no sleep follows it.  Before it come k lookups and k - 1 sleeps. *)
Theorem wait_ready_one_transition (env : Env) (name : string) (version : Z)
    (stage : string) (pending : list Status) (w : World) :
  forallb not_ready pending = true ->
  (List.length pending < 10)%nat ->
  answers env (lookups w) name version (pending ++ [READY]) = true ->
  exists before,
    trace (snd (wait_model_transition name version stage env w))
    = trace w ++ before ++ [EvTransition name version stage] /\
    count is_transition (before ++ [EvTransition name version stage]) = 1%nat /\
    count is_lookup before = S (List.length pending) /\
    count is_sleep before = List.length pending.
Proof.
  intros Hnr Hlen Hans.
  destruct (wait_ready env name version stage pending w Hnr Hlen Hans)
    as (before & Heq & Hs & Hl & Ht).
  exists before. rewrite Heq. cbn [snd trace].
  rewrite count_app, Ht. auto.
Qed.

Lemma wait_ready_one_transition_witness :
  exists before,
    trace (snd (wait_model_transition "clf-model" 1 "Staging"
                  (server false []
                     (scripted [PENDING_REGISTRATION; FAILED_REGISTRATION; READY]))
                  initial_world))
    = trace initial_world ++ before ++ [EvTransition "clf-model" 1 "Staging"] /\
    count is_transition (before ++ [EvTransition "clf-model" 1 "Staging"]) = 1%nat /\
    count is_lookup before = 3%nat /\
    count is_sleep before = 2%nat.
Proof.
  apply (wait_ready_one_transition
           (server false []
              (scripted [PENDING_REGISTRATION; FAILED_REGISTRATION; READY]))
           "clf-model" 1 "Staging" [PENDING_REGISTRATION; FAILED_REGISTRATION]
           initial_world).
  - reflexivity.
  - cbn. lia.
  - reflexivity.
Defined.

(** C2.  When none of the ten attempts sees READY and every lookup
    succeeds, the call issues no stage transition and returns normally. *)
Theorem wait_never_ready_no_transition (env : Env) (name : string) (version : Z)
    (stage : string) (statuses : list Status) (w : World) :
  List.length statuses = 10%nat ->
  forallb not_ready statuses = true ->
  answers env (lookups w) name version statuses = true ->
  exists evs w',
    wait_model_transition name version stage env w = (Returned tt, w') /\
    trace w' = trace w ++ evs /\
    count is_transition evs = 0%nat.
Proof.
  intros Hlen Hnr Hans.
  destruct (wait_exhausted env name version stage statuses w Hlen Hnr Hans)
    as (evs & w' & Heq & Ht & _ & _ & Hc).
  exists evs, w'. auto.
Qed.

Lemma wait_never_ready_no_transition_witness :
  exists evs w',
    wait_model_transition "clf-model" 1 "Staging"
      (server false [] (scripted (repeat FAILED_REGISTRATION 10))) initial_world
    = (Returned tt, w') /\
    trace w' = trace initial_world ++ evs /\
    count is_transition evs = 0%nat.
Proof.
  apply (wait_never_ready_no_transition
           (server false [] (scripted (repeat FAILED_REGISTRATION 10)))
           "clf-model" 1 "Staging" (repeat FAILED_REGISTRATION 10) initial_world);
    reflexivity.
Defined.

(** C3, as stated, fails: with ten PENDING_REGISTRATION answers the
    call sleeps ten times, and the last event of the call is the sleep
    that follows the tenth attempt. *)
Lemma wait_sleeps_after_tenth_attempt :
  let evs :=
    trace (snd (wait_model_transition "clf-model" 1 "Staging"
                  (server false [] (scripted (repeat PENDING_REGISTRATION 10)))
                  initial_world)) in
  count is_lookup evs = 10%nat /\
  count is_sleep evs = 10%nat /\
  ~ (count is_sleep evs <= 9)%nat /\
  last evs (EvPrint "") = EvSleep 1.
Proof.
  vm_compute. repeat split; try reflexivity. intros H.
  repeat (apply le_S_n in H). inversion H.
Qed.

(** C3, amended.  Whatever the registry answers, the call sleeps at
    most ten times: once after every attempt whose lookup saw a status
    other than READY, the tenth included, each sleep coming right after
    that attempt's lookup and printed line; and nothing, so no sleep,
    follows a stage transition. *)
Theorem wait_sleeps_at_most_ten (env : Env) (name : string) (version : Z)
    (stage : string) (w : World) :
  exists evs,
    trace (snd (wait_model_transition name version stage env w)) = trace w ++ evs /\
    (count is_sleep evs <= 10)%nat /\
    count is_sleep evs = count saw_not_ready evs /\
    (forall a b secs,
        evs = a ++ EvSleep secs :: b ->
        exists a' reply s,
          a = a' ++ [EvGetModelVersion name version reply;
                     EvPrint ("Model status: " ++ ModelVersionStatus.to_string s)] /\
          observed_status reply = Some s /\ not_ready s = true) /\
    (forall a b nm v st, evs = a ++ EvTransition nm v st :: b -> b = []).
Proof.
  destruct (loop_events env name version stage 10 w) as (evs & Ht & Hp).
  exists evs. split; [exact Ht|].
  split; [exact (poll_sleeps_bound _ _ _ _ _ Hp)|].
  split; [exact (poll_sleeps_count _ _ _ _ _ Hp)|].
  split; [exact (poll_sleep_preceded _ _ _ _ _ Hp)|].
  intros a b nm v st E.
  exact (proj1 (poll_transition_last _ _ _ _ _ Hp _ _ _ _ _ E)).
Qed.

(** C4.  Whatever the registry answers, every stage transition the call
    issues comes right after a lookup of the same name and version that
    saw READY (only the printed status line stands between the two), so
    none is issued at an attempt that saw PENDING_REGISTRATION or
    FAILED_REGISTRATION. *)
Theorem wait_transition_only_when_ready (env : Env) (name : string) (version : Z)
    (stage : string) (w : World) :
  exists evs,
    trace (snd (wait_model_transition name version stage env w)) = trace w ++ evs /\
    forall a b nm v st,
      evs = a ++ EvTransition nm v st :: b ->
      exists a' reply,
        a = a' ++ [EvGetModelVersion name version reply;
                   EvPrint "Model status: READY"] /\
        observed_status reply = Some READY /\
        observed_status reply <> Some PENDING_REGISTRATION /\
        observed_status reply <> Some FAILED_REGISTRATION.
Proof.
  destruct (loop_events env name version stage 10 w) as (evs & Ht & Hp).
  exists evs. split; [exact Ht|].
  intros a b nm v st E.
  destruct (poll_transition_last _ _ _ _ _ Hp _ _ _ _ _ E)
    as (_ & _ & _ & _ & a' & reply & Ha & Hr).
  exists a', reply. rewrite Hr. repeat split; [exact Ha | discriminate | discriminate].
Qed.

(** C7.  Against the answers PENDING_REGISTRATION, PENDING_REGISTRATION,
    READY, the call with target stage "Staging" sleeps exactly twice and
    issues exactly one stage transition, which carries "Staging". *)
Theorem wait_pending_pending_ready (env : Env) (name : string) (version : Z)
    (w : World) :
  answers env (lookups w) name version
    [PENDING_REGISTRATION; PENDING_REGISTRATION; READY] = true ->
  exists evs,
    trace (snd (wait_model_transition name version "Staging" env w))
    = trace w ++ evs /\
    count is_sleep evs = 2%nat /\
    filter is_transition evs = [EvTransition name version "Staging"].
Proof.
  intros Hans.
  destruct (wait_ready env name version "Staging"
              [PENDING_REGISTRATION; PENDING_REGISTRATION] w)
    as (before & Heq & Hs & Hl & Ht); [reflexivity | cbn; lia | exact Hans |].
  exists (before ++ [EvTransition name version "Staging"]).
  rewrite Heq. cbn [snd trace]. split; [reflexivity|].
  rewrite count_app, Hs, filter_app, (count_zero_filter _ _ Ht). split; reflexivity.
Qed.

Lemma wait_pending_pending_ready_witness :
  exists evs,
    trace (snd (wait_model_transition "clf-model" 1 "Staging"
                  (server false []
                     (scripted [PENDING_REGISTRATION; PENDING_REGISTRATION; READY]))
                  initial_world))
    = trace initial_world ++ evs /\
    count is_sleep evs = 2%nat /\
    filter is_transition evs = [EvTransition "clf-model" 1 "Staging"].
Proof.
  apply (wait_pending_pending_ready
           (server false []
              (scripted [PENDING_REGISTRATION; PENDING_REGISTRATION; READY]))
           "clf-model" 1 initial_world).
  reflexivity.
Defined.

(** ** Rules for trace specifications *)

Section Emits.

Variables (env : Env) (P : Event -> Prop).

Lemma emits_lift {A} (r : Result A) (Q : A -> Prop) :
  match r with Returned a => Q a | Raised _ => True end ->
  emits env P (lift r) Q.
Proof.
  intros H w. exists []. cbn. rewrite app_nil_r. auto.
Qed.

Lemma emits_ret {A} (a : A) (Q : A -> Prop) : Q a -> emits env P (ret a) Q.
Proof. intros H. now apply (emits_lift (Returned a)). Qed.

Lemma emits_raise {A} (e : PyExc) (Q : A -> Prop) : emits env P (raise e) Q.
Proof. now apply (emits_lift (Raised e)). Qed.

Lemma emits_bind {A B} (m : M A) (k : A -> M B) (Q : A -> Prop) (R : B -> Prop) :
  emits env P m Q ->
  (forall a, Q a -> emits env P (k a) R) ->
  emits env P (bind m k) R.
Proof.
  intros Hm Hk w. unfold bind.
  destruct (Hm w) as (evs1 & Ht1 & Hf1 & Hq1).
  destruct (m env w) as [[a|e] w1]; cbn [fst snd] in *.
  - destruct (Hk a Hq1 w1) as (evs2 & Ht2 & Hf2 & Hq2).
    exists (evs1 ++ evs2). rewrite Ht2, Ht1, app_assoc.
    split; [reflexivity|]. split; [now apply Forall_app|exact Hq2].
  - exists evs1. auto.
Qed.

Lemma emits_post {A} (m : M A) (Q Q' : A -> Prop) :
  emits env P m Q -> (forall a, Q a -> Q' a) -> emits env P m Q'.
Proof.
  intros Hm HQ w. destruct (Hm w) as (evs & Ht & Hf & Hq).
  exists evs. split; [exact Ht|]. split; [exact Hf|].
  destruct (fst (m env w)); auto.
Qed.

Lemma emits_emit (ev : Event) :
  P ev -> emits env P (emit ev) (fun _ => True).
Proof. intros H w. exists [ev]. cbn. auto. Qed.

Lemma emits_request (ev : Event) :
  P ev -> emits env P (request ev) (fun _ => True).
Proof.
  intros H w. exists [ev]. unfold request.
  destruct (env_raises env ev); cbn; auto.
Qed.

Lemma emits_try_except (body : M unit) (handler : PyExc -> M unit)
    (Q : unit -> Prop) :
  emits env P body Q ->
  (forall e, emits env P (handler e) Q) ->
  emits env P (try_except body handler) Q.
Proof.
  intros Hb Hh w. unfold try_except.
  destruct (Hb w) as (evs1 & Ht1 & Hf1 & Hq1).
  destruct (body env w) as [[a|e] w1]; cbn [fst snd] in *.
  - exists evs1. auto.
  - destruct (Hh e w1) as (evs2 & Ht2 & Hf2 & Hq2).
    exists (evs1 ++ evs2). rewrite Ht2, Ht1, app_assoc.
    split; [reflexivity|]. split; [now apply Forall_app|exact Hq2].
Qed.

Lemma emits_with_start_run {A} (run_name : string) (tags : list (string * string))
    (body : string -> M A) (Q : A -> Prop) :
  P (EvStartRun run_name tags) ->
  (forall status, P (EvEndRun status)) ->
  (forall run_id, emits env P (body run_id) Q) ->
  emits env P (with_start_run run_name tags body) Q.
Proof.
  intros Hs He Hb w. unfold with_start_run.
  destruct (env_start_run env run_name) as [run_id|e].
  - destruct (Hb run_id (record (EvStartRun run_name tags) w))
      as (evs & Ht & Hf & Hq).
    destruct (body run_id env (record (EvStartRun run_name tags) w))
      as [[a|e] w1]; cbn [fst snd] in *.
    + exists (EvStartRun run_name tags :: evs ++ [EvEndRun "FINISHED"]).
      rewrite trace_record, Ht, trace_record, <- !app_assoc.
      split; [reflexivity|]. split; [|exact Hq].
      constructor; [exact Hs|]. apply Forall_app. auto.
    + exists (EvStartRun run_name tags :: evs ++ [EvEndRun "FAILED"]).
      rewrite trace_record, Ht, trace_record, <- !app_assoc.
      split; [reflexivity|]. split; [|exact I].
      constructor; [exact Hs|]. apply Forall_app. auto.
  - exists [EvStartRun run_name tags]. cbn. auto.
Qed.

Lemma emits_os_getenv (key : string) :
  P (EvGetenv key (env_getenv env key)) ->
  emits env P (os_getenv key) (fun value => value = env_getenv env key).
Proof. intros H w. exists [EvGetenv key (env_getenv env key)]. cbn. auto. Qed.

Lemma emits_os_path_exists (path : string) :
  (forall answer, P (EvPathExists path answer)) ->
  emits env P (os_path_exists path) (fun _ => True).
Proof. intros H w. eexists [_]. cbn. auto. Qed.

Lemma emits_now_timestamp :
  (forall t, P (EvNow t)) -> emits env P now_timestamp (fun _ => True).
Proof. intros H w. eexists [_]. cbn. auto. Qed.

Lemma emits_get_experiment_by_name (name : string) :
  (forall reply, P (EvGetExperimentByName name reply)) ->
  emits env P (get_experiment_by_name name) (fun _ => True).
Proof.
  intros H w. eexists [_]. unfold get_experiment_by_name. cbn [fst snd].
  rewrite trace_record. split; [reflexivity|]. split; [auto|].
  now destruct (env_get_experiment_by_name env name).
Qed.

Lemma emits_create_experiment (name location : string) :
  P (EvCreateExperiment name location) ->
  emits env P (create_experiment name location) (fun _ => True).
Proof.
  intros H w. eexists [_]. unfold create_experiment. cbn [fst snd].
  rewrite trace_record. split; [reflexivity|]. split; [auto|].
  now destruct (env_create_experiment env name location).
Qed.

Lemma emits_search_model_versions (filter_string : string) :
  (forall reply, P (EvSearchModelVersions filter_string reply)) ->
  emits env P (search_model_versions filter_string) (fun _ => True).
Proof.
  intros H w. eexists [_]. unfold search_model_versions. cbn [fst snd].
  rewrite trace_record. split; [reflexivity|]. split; [auto|].
  now destruct (env_search_model_versions env filter_string).
Qed.

End Emits.

(** The polling call only adds lookups, printed lines, sleeps and
    transitions, all for the name and version it was called with. *)
Lemma emits_wait_model_transition (env : Env) (P : Event -> Prop)
    (name : string) (version : Z) (stage : string) :
  (forall reply, P (EvGetModelVersion name version reply)) ->
  (forall line, P (EvPrint line)) ->
  P (EvSleep 1) ->
  P (EvTransition name version stage) ->
  emits env P (wait_model_transition name version stage) (fun _ => True).
Proof.
  intros Hget Hprint Hsleep Htrans w.
  destruct (loop_events env name version stage 10 w) as (evs & Ht & Hp).
  exists evs. split; [exact Ht|]. split.
  - clear Ht. induction Hp; repeat constructor; auto.
  - now destruct (fst _).
Qed.

(** ** Paths *)

Lemma length_append (a b : string) :
  String.length (a ++ b) = (String.length a + String.length b)%nat.
Proof. induction a as [|c a IH]; cbn; [reflexivity|now rewrite IH]. Qed.

Lemma join_step_length (path b : string) :
  prefix "/" b = false ->
  (String.length b <= String.length (join_step path b))%nat.
Proof.
  intros H. unfold join_step. rewrite H.
  destruct (String.eqb path "" || ends_with_sep path)%bool;
    rewrite !length_append; lia.
Qed.

(** The artifact path of line 52 is never the registered model name:
    it ends in "mlflow_artifacts/clf-model" whatever HOME is. *)
Lemma artifact_path_not_artifact_name (home : string) :
  os_path_join home ["mlflow_artifacts"; "clf-model"] <> artifact_name.
Proof.
  unfold os_path_join. cbn [fold_left]. intros E.
  apply (f_equal String.length) in E. revert E.
  set (p := join_step home "mlflow_artifacts").
  assert (Hp : (16 <= String.length p)%nat)
    by (apply (join_step_length home "mlflow_artifacts"); reflexivity).
  clearbody p. unfold join_step. replace (prefix "/" "clf-model") with false by reflexivity.
  destruct (String.eqb p "" || ends_with_sep p)%bool;
    rewrite !length_append; cbn; lia.
Qed.

(** ** The blocks of [main] *)

Ltac emits_unit HP :=
  eapply emits_bind;
  [ first [apply emits_request | apply emits_emit]; apply HP; reflexivity
  | intros _ _ ].

(** Lines 46-143 only add set-up events and the registration under
    [artifact_name], and hand on the artifact path built from HOME. *)
Lemma emits_main_train_and_register (env : Env) (P : Event -> Prop) :
  (forall ev, setup_event ev = true -> P ev) ->
  (forall model_uri, P (EvRegisterModel model_uri artifact_name)) ->
  emits env P main_train_and_register
    (fun artifact_path =>
       exists home,
         env_getenv env "HOME" = Some home /\
         artifact_path = os_path_join home ["mlflow_artifacts"; "clf-model"]).
Proof.
  intros HP Hreg. unfold main_train_and_register.
  eapply emits_bind;
    [apply emits_now_timestamp; intros; apply HP; reflexivity | intros timestamp _].
  cbv zeta.
  eapply emits_bind; [apply emits_os_getenv; apply HP; reflexivity | intros home Hhome].
  eapply emits_bind with
    (Q := fun artifact_path =>
            exists home,
              env_getenv env "HOME" = Some home /\
              artifact_path = os_path_join home ["mlflow_artifacts"; "clf-model"]).
  { destruct home as [home|]; [apply emits_ret; eauto | apply emits_raise]. }
  intros artifact_path Hpath.
  eapply emits_bind;
    [apply emits_os_path_exists; intros; apply HP; reflexivity | intros present _].
  eapply emits_bind with (Q := fun _ => True).
  { destruct present; cbn [negb];
      [now apply emits_ret | apply emits_request; apply HP; reflexivity]. }
  intros _ _.
  do 6 emits_unit HP.
  emits_unit HP.
  eapply emits_bind;
    [apply emits_get_experiment_by_name; intros; apply HP; reflexivity
    | intros mlf_experiment _].
  eapply emits_bind with (Q := fun _ => True).
  { destruct mlf_experiment; [now apply emits_ret|].
    eapply emits_bind;
      [apply emits_create_experiment; apply HP; reflexivity | intros _ _].
    now apply emits_ret. }
  intros _ _.
  eapply emits_bind with (Q := fun _ => True).
  { apply emits_lift. now destruct (getattr_experiment_id mlf_experiment). }
  intros ready_id _.
  do 3 emits_unit HP.
  eapply emits_bind with (Q := fun _ => True).
  { apply emits_with_start_run; try (intros; apply HP; reflexivity).
    intros run_num. do 6 emits_unit HP.
    apply emits_request. apply Hreg. }
  intros _ _. now apply emits_ret.
Qed.

Lemma bind_returned {A B} (m : M A) (k : A -> M B) (env : Env) (w w1 : World) (a : A) :
  m env w = (Returned a, w1) -> bind m k env w = k a env w1.
Proof. intros H. unfold bind. now rewrite H. Qed.

Lemma bind_raised {A B} (m : M A) (k : A -> M B) (env : Env) (w w1 : World)
    (e : PyExc) :
  m env w = (Raised e, w1) -> bind m k env w = (Raised e, w1).
Proof. intros H. unfold bind. now rewrite H. Qed.

(** Once lines 46-154 have returned, [main] is its last block. *)
Lemma main_at_promote (env : Env) (w w0 w1 : World) (artifact_path : string) (v : Z) :
  main_train_and_register env w = (Returned artifact_path, w0) ->
  main_describe_latest artifact_path env w0 = (Returned v, w1) ->
  main env w = main_promote artifact_path v env w1.
Proof.
  intros H0 H1. unfold main.
  rewrite (bind_returned _ _ _ _ _ _ H0). now rewrite (bind_returned _ _ _ _ _ _ H1).
Qed.

(** The [try] statement of lines 157-161 always completes; when the
    call inside it raised, the state it leaves has the logged error. *)
Lemma main_promote_after_try (env : Env) (w : World) (artifact_path : string) (v : Z) :
  main_promote artifact_path v env w
  = wait_model_transition artifact_path v "Staging" env
      (match fst (wait_model_transition artifact_path (v - 1) "None" env w) with
       | Returned _ => snd (wait_model_transition artifact_path (v - 1) "None" env w)
       | Raised e =>
           record (EvLog "ERROR" ("wait_model_transition got exception " ++ str_exc e))
             (snd (wait_model_transition artifact_path (v - 1) "None" env w))
       end).
Proof.
  unfold main_promote, bind, try_except.
  destruct (wait_model_transition artifact_path (v - 1) "None" env w) as [[[]|e] w2];
    reflexivity.
Qed.

Lemma setup_event_names (registered queried : string) (ev : Event) :
  setup_event ev = true -> names_registry registered queried ev.
Proof. destruct ev; intros H; try discriminate H; exact I. Qed.

Lemma setup_event_before_promotion (ev : Event) :
  setup_event ev = true -> before_promotion ev.
Proof. destruct ev; intros H; try discriminate H; repeat split. Qed.

(** Every registry request of [main] after the registration names the
    artifact path. *)
Lemma emits_main_names (env : Env) (home : string) :
  env_getenv env "HOME" = Some home ->
  emits env
    (names_registry artifact_name (os_path_join home ["mlflow_artifacts"; "clf-model"]))
    main (fun _ => True).
Proof.
  intros Hhome. unfold main.
  eapply emits_bind.
  { apply emits_main_train_and_register;
      [apply setup_event_names | reflexivity]. }
  intros artifact_path (h & Hh & ->).
  rewrite Hhome in Hh. injection Hh as <-.
  eapply emits_bind with (Q := fun _ => True).
  { unfold main_describe_latest.
    eapply emits_bind;
      [apply emits_search_model_versions; reflexivity | intros infos _].
    eapply emits_bind with (Q := fun _ => True).
    { apply emits_lift. now destruct (py_max (map mv_version infos)). }
    intros v _.
    eapply emits_bind; [apply emits_request; reflexivity | intros _ _].
    now apply emits_ret. }
  intros v _. unfold main_promote.
  eapply emits_bind with (Q := fun _ => True).
  { apply emits_try_except.
    - apply emits_wait_model_transition; try reflexivity; intros; exact I.
    - intros e. apply emits_emit. exact I. }
  intros _ _.
  apply emits_wait_model_transition; try reflexivity; intros; exact I.
Qed.

(** ** Never returning *)

Lemma raises_bind_l {A B} (env : Env) (m : M A) (k : A -> M B) :
  raises_in env m -> raises_in env (bind m k).
Proof.
  intros H w. destruct (H w) as (e & w' & Hm).
  exists e, w'. now apply bind_raised.
Qed.

Lemma raises_bind_r {A B} (env : Env) (m : M A) (k : A -> M B) :
  (forall a, raises_in env (k a)) -> raises_in env (bind m k).
Proof.
  intros H w. unfold bind. destruct (m env w) as [[a|e] w1]; [apply H | eauto].
Qed.

(** ** [main]: claims C5, C6, C8 and C10 *)

(** C5, as stated, fails: a lookup failure leaves
    [wait_model_transition] as a raised exception, and when it is the
    current-version invocation of [main] that raises, the exception
    leaves [main] too. *)
Lemma lookup_failure_propagates :
  fst (wait_model_transition demo_path 0 "None" first_registration initial_world)
  = Raised (version_not_found demo_path 0) /\
  fst (main no_lookup initial_world) = Raised (version_not_found demo_path 1).
Proof. split; vm_compute; reflexivity. Qed.

(** C5, amended.  [wait_model_transition] does not catch a lookup
    failure: the call raises it to its caller.  In [main] the caller
    catches and logs what the previous-version invocation raises and
    goes on, and the outcome of [main] is the outcome of the
    current-version invocation, so a failure raised there leaves [main]. *)
Theorem lookup_failure_handling (env : Env) :
  (forall name version stage pending w e,
      forallb not_ready pending = true ->
      (List.length pending < 10)%nat ->
      answers env (lookups w) name version pending = true ->
      env_get_model_version env (lookups w + List.length pending) name version
      = Raised e ->
      fst (wait_model_transition name version stage env w) = Raised e) /\
  (forall w artifact_path w0 v w1,
      main_train_and_register env w = (Returned artifact_path, w0) ->
      main_describe_latest artifact_path env w0 = (Returned v, w1) ->
      let previous := wait_model_transition artifact_path (v - 1) "None" env w1 in
      let after_try :=
        match fst previous with
        | Returned _ => snd previous
        | Raised e =>
            record (EvLog "ERROR" ("wait_model_transition got exception " ++ str_exc e))
              (snd previous)
        end in
      main env w = wait_model_transition artifact_path v "Staging" env after_try).
Proof.
  split.
  - intros name version stage pending w e Hnr Hlen Hans He.
    destruct (wait_lookup_raises env name version stage pending w e Hnr Hlen Hans He)
      as [w' Hw].
    now rewrite Hw.
  - intros w artifact_path w0 v w1 H0 H1. cbv zeta.
    rewrite (main_at_promote env w w0 w1 artifact_path v H0 H1).
    apply main_promote_after_try.
Qed.

Lemma lookup_failure_handling_witness :
  fst (wait_model_transition demo_path 1 "Staging" no_lookup initial_world)
  = Raised (version_not_found demo_path 1) /\
  fst (main no_lookup initial_world)
  = fst (wait_model_transition demo_path 1 "Staging" no_lookup
           (record
              (EvLog "ERROR"
                 ("wait_model_transition got exception "
                    ++ str_exc (version_not_found demo_path 0)))
              (snd (wait_model_transition demo_path (1 - 1) "None" no_lookup
                      (snd (main_describe_latest demo_path no_lookup
                              (snd (main_train_and_register no_lookup
                                      initial_world)))))))).
Proof.
  destruct (lookup_failure_handling no_lookup) as [Hcall Hmain]. split.
  - apply (Hcall demo_path 1 "Staging" [] initial_world
             (version_not_found demo_path 1));
      [reflexivity | cbn; lia | reflexivity | reflexivity].
  - rewrite (Hmain initial_world demo_path
               (snd (main_train_and_register no_lookup initial_world)) 1
               (snd (main_describe_latest demo_path no_lookup
                       (snd (main_train_and_register no_lookup initial_world)))));
      reflexivity.
Defined.

(** C6.  In [main], when the first polling call, the one for the
    previous version, raises, the exception is caught and logged at
    ERROR level, and the second polling call, for the version just
    found, is run from the state so reached; [main] ends as that call
    ends. *)
Theorem main_polls_current_after_previous_fails (env : Env) (w w0 w1 w2 : World)
    (artifact_path : string) (v : Z) (e : PyExc) :
  main_train_and_register env w = (Returned artifact_path, w0) ->
  main_describe_latest artifact_path env w0 = (Returned v, w1) ->
  wait_model_transition artifact_path (v - 1) "None" env w1 = (Raised e, w2) ->
  main env w
  = wait_model_transition artifact_path v "Staging" env
      (record (EvLog "ERROR" ("wait_model_transition got exception " ++ str_exc e))
         w2).
Proof.
  intros H0 H1 H2.
  rewrite (main_at_promote env w w0 w1 artifact_path v H0 H1).
  rewrite main_promote_after_try, H2. reflexivity.
Qed.

Lemma main_polls_current_after_previous_fails_witness :
  main first_registration initial_world
  = wait_model_transition demo_path 1 "Staging" first_registration
      (record
         (EvLog "ERROR"
            ("wait_model_transition got exception "
               ++ str_exc (version_not_found demo_path 0)))
         (snd (wait_model_transition demo_path (1 - 1) "None" first_registration
                 (snd (main_describe_latest demo_path first_registration
                         (snd (main_train_and_register first_registration
                                 initial_world))))))).
Proof.
  apply (main_polls_current_after_previous_fails first_registration initial_world
           (snd (main_train_and_register first_registration initial_world))
           (snd (main_describe_latest demo_path first_registration
                   (snd (main_train_and_register first_registration initial_world))))
           _ demo_path 1 (version_not_found demo_path 0));
    reflexivity.
Defined.

(** The run of scenario 3: version 0 is not found, the error is logged,
    and version 1 is moved to "Staging". *)
Example first_registration_run :
  fst (main first_registration initial_world) = Returned tt /\
  skipn 25 (trace (snd (main first_registration initial_world)))
  = [EvGetModelVersion demo_path 0 (Raised (version_not_found demo_path 0));
     EvLog "ERROR"
       ("wait_model_transition got exception "
          ++ str_exc (version_not_found demo_path 0));
     EvGetModelVersion demo_path 1 (Returned (mkModelVersion demo_path 1 "READY"));
     EvPrint "Model status: READY";
     EvTransition demo_path 1 "Staging"].
Proof. split; vm_compute; reflexivity. Qed.

(** C8 fails on the code.  Whenever the experiment lookup answers
    "absent", [main] never returns normally: it asks for the experiment
    to be created and then reads [experiment_id] of the absent result
    (line 107), so an exception is raised before [set_experiment]. *)
Theorem main_raises_without_experiment (env : Env) (w : World) :
  env_get_experiment_by_name env experiment_name = Returned None ->
  exists e w', main env w = (Raised e, w').
Proof.
  intros H. revert w. change (raises_in env main).
  unfold main. apply raises_bind_l. unfold main_train_and_register.
  do 12 (apply raises_bind_r; intros ?).
  intros w. unfold bind, get_experiment_by_name. rewrite H.
  unfold create_experiment.
  match goal with
  | |- context [env_create_experiment env ?n ?l] =>
      destruct (env_create_experiment env n l) as [new_id|e]
  end; cbn; eauto.
Qed.

Lemma main_raises_without_experiment_witness :
  exists e w', main fresh_server initial_world = (Raised e, w').
Proof.
  apply (main_raises_without_experiment fresh_server initial_world).
  reflexivity.
Defined.

(** The run on a server that does not know the experiment: the
    experiment is created, and the next step raises [AttributeError]. *)
Example fresh_server_run :
  fst (main fresh_server initial_world)
  = Raised (mkExc "AttributeError"
              "'NoneType' object has no attribute 'experiment_id'") /\
  skipn 10 (trace (snd (main fresh_server initial_world)))
  = [EvGetExperimentByName experiment_name (Returned None);
     EvCreateExperiment experiment_name
       "/home/user/mlflow_artifacts/clf-model/my-experiment"] /\
  count is_set_experiment (trace (snd (main fresh_server initial_world))) = 0%nat.
Proof. repeat split; vm_compute; reflexivity. Qed.

(** The registry requests of the run on [first_registration], in order. *)
Example first_registration_registry_requests :
  filter (fun ev => negb (setup_event ev) && negb (is_sleep ev))
    (trace (snd (main first_registration initial_world)))
  = [EvRegisterModel ("runs:/run-1/" ++ demo_path) "clf-model";
     EvSearchModelVersions ("name = '" ++ demo_path ++ "'")
       (Returned [mkModelVersion demo_path 1 "READY"]);
     EvUpdateModelVersion demo_path 1
       "Random forest scikit-learn model with 100 decision trees.";
     EvGetModelVersion demo_path 0 (Raised (version_not_found demo_path 0));
     EvGetModelVersion demo_path 1 (Returned (mkModelVersion demo_path 1 "READY"));
     EvPrint "Model status: READY";
     EvTransition demo_path 1 "Staging"].
Proof. vm_compute. reflexivity. Qed.

(** C10.  When lines 46-143 have returned and the version search
    answers with the empty list, [max] raises [ValueError]: [main] ends
    with that exception right after the search, having issued no
    description update, no version lookup and no stage transition. *)
Theorem main_empty_search_aborts (env : Env) (w w0 : World) (artifact_path : string) :
  main_train_and_register env w = (Returned artifact_path, w0) ->
  env_search_model_versions env ("name = '" ++ artifact_path ++ "'") = Returned [] ->
  exists earlier w',
    main env w = (Raised (mkExc "ValueError" "max() arg is an empty sequence"), w') /\
    trace w'
    = trace w ++ earlier
        ++ [EvSearchModelVersions ("name = '" ++ artifact_path ++ "'") (Returned [])] /\
    count is_update earlier = 0%nat /\
    count is_lookup earlier = 0%nat /\
    count is_transition earlier = 0%nat.
Proof.
  intros H0 Hsearch.
  destruct (emits_main_train_and_register env before_promotion
              setup_event_before_promotion
              (fun _ => conj eq_refl (conj eq_refl eq_refl)) w)
    as (earlier & Ht & Hf & _).
  rewrite H0 in Ht. cbn [snd] in Ht.
  exists earlier,
    (record (EvSearchModelVersions ("name = '" ++ artifact_path ++ "'") (Returned []))
       w0).
  split; [|split].
  - unfold main. rewrite (bind_returned _ _ _ _ _ _ H0).
    unfold main_describe_latest, bind, search_model_versions, lift.
    rewrite Hsearch. reflexivity.
  - rewrite trace_record, Ht, <- app_assoc. reflexivity.
  - repeat split; apply count_zero_Forall;
      (eapply Forall_impl; [|exact Hf]); intros ev (Hu & Hl & Htr); assumption.
Qed.

Lemma main_empty_search_aborts_witness :
  exists earlier w',
    main nothing_found initial_world
    = (Raised (mkExc "ValueError" "max() arg is an empty sequence"), w') /\
    trace w'
    = trace initial_world ++ earlier
        ++ [EvSearchModelVersions ("name = '" ++ demo_path ++ "'") (Returned [])] /\
    count is_update earlier = 0%nat /\
    count is_lookup earlier = 0%nat /\
    count is_transition earlier = 0%nat.
Proof.
  apply (main_empty_search_aborts nothing_found initial_world
           (snd (main_train_and_register nothing_found initial_world)) demo_path);
    reflexivity.
Defined.

(** * Further properties of the polling call *)

Lemma poll_lookups_bound (name : string) (version : Z) (stage : string)
    (n : nat) (evs : list Event) :
  poll_events name version stage n evs -> (count is_lookup evs <= n)%nat.
Proof. induction 1; unfold count in *; cbn; lia. Qed.

Lemma poll_events_own (name : string) (version : Z) (stage : string)
    (n : nat) (evs : list Event) :
  poll_events name version stage n evs ->
  Forall (poll_event name version stage) evs.
Proof. induction 1; repeat constructor; auto. Qed.

Lemma to_string_from_string (status_str : string) (s : Status) :
  ModelVersionStatus.from_string status_str = Returned s ->
  ModelVersionStatus.to_string s = status_str.
Proof.
  unfold ModelVersionStatus.from_string.
  destruct (String.eqb status_str "PENDING_REGISTRATION") eqn:E1.
  { apply String.eqb_eq in E1. intros H. injection H as <-. now subst. }
  destruct (String.eqb status_str "FAILED_REGISTRATION") eqn:E2.
  { apply String.eqb_eq in E2. intros H. injection H as <-. now subst. }
  destruct (String.eqb status_str "READY") eqn:E3.
  { apply String.eqb_eq in E3. intros H. injection H as <-. now subst. }
  discriminate.
Qed.

Lemma loop_status_raises (env : Env) (name : string) (version : Z) (stage : string)
    (n : nat) (w : World) (details : ModelVersion) (e : PyExc) :
  env_get_model_version env (lookups w) name version = Returned details ->
  ModelVersionStatus.from_string (mv_status details) = Raised e ->
  wait_model_transition_loop (S n) name version stage env w
  = (Raised e, after_lookup name version (Returned details) w).
Proof.
  intros H He. unfold after_lookup. cbn [wait_model_transition_loop].
  unfold bind, get_model_version, lift. now rewrite H, He.
Qed.

(** A printed line follows the successful lookup whose status string it
    shows. *)
Lemma poll_print_preceded (name : string) (version : Z) (stage : string)
    (n : nat) (evs : list Event) :
  poll_events name version stage n evs ->
  forall a b line,
    evs = a ++ EvPrint line :: b ->
    exists a' details,
      a = a' ++ [EvGetModelVersion name version (Returned details)] /\
      line = ("Model status: " ++ mv_status details)%string.
Proof.
  induction 1 as [ | n e | n d Hs | n d Hs | n d s evs Hs Hn _ IH ];
    intros a b line E.
  - empty_app.
  - peel E. empty_app.
  - peel E. empty_app.
  - apply observed_status_inv, to_string_from_string in Hs. cbn in Hs.
    peel E. peel E.
    + inversion E; subst. exists [], d. now rewrite <- Hs.
    + peel E. empty_app.
  - apply observed_status_inv, to_string_from_string in Hs.
    peel E. peel E.
    + inversion E; subst. exists [], d. now rewrite <- Hs.
    + peel E.
      destruct (IH _ _ _ E) as (a' & details & -> & ->).
      exists (EvGetModelVersion name version (Returned d)
                :: EvPrint ("Model status: " ++ ModelVersionStatus.to_string s)
                :: EvSleep 1 :: a'), details.
      split; reflexivity.
Qed.

(** A loop that returns normally either ended with its transition or
    used up all its attempts. *)
Lemma loop_returned (env : Env) (name : string) (version : Z) (stage : string)
    (n : nat) :
  forall w w',
    wait_model_transition_loop n name version stage env w = (Returned tt, w') ->
    exists evs,
      trace w' = trace w ++ evs /\
      ((exists before,
           evs = before ++ [EvTransition name version stage] /\
           env_raises env (EvTransition name version stage) = None) \/
       (count is_lookup evs = n /\ count is_sleep evs = n /\
        count is_transition evs = 0%nat)).
Proof.
  induction n as [|n IH]; intros w w' H.
  - cbn in H. injection H as <-. exists []. rewrite app_nil_r. auto.
  - destruct (env_get_model_version env (lookups w) name version)
      as [d|e] eqn:Hreply.
    2: { rewrite (loop_lookup_raised env name version stage n w e Hreply) in H.
         discriminate H. }
    destruct (observed_status (Returned d)) as [s|] eqn:Hs.
    2: { destruct (loop_status_unknown env name version stage n w d Hreply Hs)
           as [e He].
         rewrite He in H. discriminate H. }
    destruct (not_ready s) eqn:Hn.
    + rewrite (loop_retry env name version stage n w d s Hreply Hs Hn) in H.
      destruct (IH _ _ H) as (evs & Ht & Hcase).
      exists (EvGetModelVersion name version (Returned d)
                :: EvPrint ("Model status: " ++ ModelVersionStatus.to_string s)
                :: EvSleep 1 :: evs).
      split.
      { rewrite Ht, !trace_record, trace_after_lookup, <- !app_assoc. reflexivity. }
      destruct Hcase as [(before & -> & Hr) | (Hc1 & Hc2 & Hc3)].
      * left. eexists (_ :: _ :: _ :: before). split; [reflexivity|exact Hr].
      * right. unfold count in *. cbn. rewrite Hc1, Hc2, Hc3. auto.
    + assert (s = READY) as ->.
      { unfold not_ready in Hn. apply status_eqb_eq.
        now destruct (ModelVersionStatus.eqb s READY). }
      rewrite (loop_ready env name version stage n w d Hreply Hs) in H.
      unfold request in H.
      destruct (env_raises env (EvTransition name version stage)) eqn:Hr;
        [discriminate H|].
      injection H as <-.
      exists [EvGetModelVersion name version (Returned d);
              EvPrint "Model status: READY"; EvTransition name version stage].
      split.
      { rewrite !trace_record, trace_after_lookup, <- !app_assoc. reflexivity. }
      left. exists [EvGetModelVersion name version (Returned d);
                    EvPrint "Model status: READY"]. auto.
Qed.

(** X1.  A FAILED_REGISTRATION answer does not end the polling.  When
    none of the ten answers is READY, pending or failed alike, the call
    makes all ten lookups, sleeps ten times and then returns normally. *)
Theorem wait_exhausts_budget (env : Env) (name : string) (version : Z)
    (stage : string) (statuses : list Status) (w : World) :
  List.length statuses = 10%nat ->
  forallb not_ready statuses = true ->
  answers env (lookups w) name version statuses = true ->
  exists evs w',
    wait_model_transition name version stage env w = (Returned tt, w') /\
    trace w' = trace w ++ evs /\
    lookups w' = (lookups w + 10)%nat /\
    count is_lookup evs = 10%nat /\
    count is_sleep evs = 10%nat.
Proof.
  intros Hlen Hnr Hans.
  destruct (loop_pending env name version stage statuses 0 w Hnr Hans)
    as (evs & w1 & Heq & Ht & Hl & Hc1 & Hc2 & _).
  exists evs, w1. unfold wait_model_transition.
  rewrite Hlen in *. cbn [Nat.add] in Heq. rewrite Heq. auto.
Qed.

Lemma wait_exhausts_budget_witness :
  exists evs w',
    wait_model_transition "clf-model" 1 "Staging"
      (server false []
         (scripted (FAILED_REGISTRATION :: repeat PENDING_REGISTRATION 9)))
      initial_world
    = (Returned tt, w') /\
    trace w' = trace initial_world ++ evs /\
    lookups w' = (lookups initial_world + 10)%nat /\
    count is_lookup evs = 10%nat /\
    count is_sleep evs = 10%nat.
Proof.
  apply (wait_exhausts_budget
           (server false []
              (scripted (FAILED_REGISTRATION :: repeat PENDING_REGISTRATION 9)))
           "clf-model" 1 "Staging"
           (FAILED_REGISTRATION :: repeat PENDING_REGISTRATION 9) initial_world);
    reflexivity.
Defined.

(** X2.  Whatever the registry answers, one call makes at most ten
    lookups and at most one transition, and issues nothing but lookups
    of its own name and version, printed lines, one-second sleeps and
    the transition of that version to the requested stage. *)
Theorem wait_stays_within_its_version (env : Env) (name : string) (version : Z)
    (stage : string) (w : World) :
  exists evs,
    trace (snd (wait_model_transition name version stage env w)) = trace w ++ evs /\
    Forall (poll_event name version stage) evs /\
    (count is_lookup evs <= 10)%nat /\
    (count is_transition evs <= 1)%nat.
Proof.
  destruct (loop_events env name version stage 10 w) as (evs & Ht & Hp).
  exists evs. split; [exact Ht|].
  split; [exact (poll_events_own _ _ _ _ _ Hp)|].
  split; [exact (poll_lookups_bound _ _ _ _ _ Hp)|].
  exact (poll_transitions_count _ _ _ _ _ Hp).
Qed.

(** X3.  A status string outside the enumeration ends the call at
    once: the exception of [from_string] leaves the call right after
    that lookup, with no line printed for it, no sleep and no
    transition. *)
Theorem wait_unknown_status_raises (env : Env) (name : string) (version : Z)
    (stage : string) (pending : list Status) (w : World)
    (details : ModelVersion) (e : PyExc) :
  forallb not_ready pending = true ->
  (List.length pending < 10)%nat ->
  answers env (lookups w) name version pending = true ->
  env_get_model_version env (lookups w + List.length pending) name version
  = Returned details ->
  ModelVersionStatus.from_string (mv_status details) = Raised e ->
  exists before w',
    wait_model_transition name version stage env w = (Raised e, w') /\
    trace w' = trace w ++ before ++ [EvGetModelVersion name version (Returned details)] /\
    count is_sleep before = List.length pending /\
    count is_transition before = 0%nat.
Proof.
  intros Hnr Hlen Hans Hd He. unfold wait_model_transition.
  replace 10%nat with (List.length pending + S (9 - List.length pending))%nat by lia.
  destruct (loop_pending env name version stage pending
              (S (9 - List.length pending)) w Hnr Hans)
    as (evs & w1 & Heq & Ht & Hl & Hc1 & _ & Hc3).
  rewrite Heq. rewrite <- Hl in Hd.
  rewrite (loop_status_raises env name version stage _ w1 details e Hd He).
  exists evs, (after_lookup name version (Returned details) w1).
  split; [reflexivity|].
  rewrite trace_after_lookup, Ht, <- app_assoc. auto.
Qed.

Lemma wait_unknown_status_raises_witness :
  exists before w',
    wait_model_transition "clf-model" 1 "Staging" (server false [] garbled)
      initial_world
    = (Raised (mkExc "Exception"
                 ("Could not get model version status corresponding to string DELETED"
                    ++ ". Valid status strings: "
                    ++ "['PENDING_REGISTRATION', 'FAILED_REGISTRATION', 'READY']")),
       w') /\
    trace w'
    = trace initial_world ++ before
        ++ [EvGetModelVersion "clf-model" 1
              (Returned (mkModelVersion "clf-model" 1 "DELETED"))] /\
    count is_sleep before = 0%nat /\
    count is_transition before = 0%nat.
Proof.
  apply (wait_unknown_status_raises (server false [] garbled) "clf-model" 1
           "Staging" [] initial_world);
    [reflexivity | cbn; lia | reflexivity | reflexivity | reflexivity].
Defined.

(** X4.  When the registry refuses the transition, the exception
    leaves the call, and the transition is not tried again: it is the
    only transition and the last event of the call. *)
Theorem wait_transition_failure_propagates (env : Env) (name : string)
    (version : Z) (stage : string) (pending : list Status) (w : World) (e : PyExc) :
  forallb not_ready pending = true ->
  (List.length pending < 10)%nat ->
  answers env (lookups w) name version (pending ++ [READY]) = true ->
  env_raises env (EvTransition name version stage) = Some e ->
  exists before w',
    wait_model_transition name version stage env w = (Raised e, w') /\
    trace w' = trace w ++ before ++ [EvTransition name version stage] /\
    count is_transition before = 0%nat.
Proof.
  intros Hnr Hlen Hans He.
  destruct (wait_ready env name version stage pending w Hnr Hlen Hans)
    as (before & Heq & _ & _ & Ht).
  rewrite He in Heq. rewrite Heq. eexists before, _. split; [reflexivity|]. auto.
Qed.

Lemma wait_transition_failure_propagates_witness :
  exists before w',
    wait_model_transition "clf-model" 1 "Staging"
      (refusing_transitions (scripted [PENDING_REGISTRATION; READY])) initial_world
    = (Raised transition_refused, w') /\
    trace w'
    = trace initial_world ++ before ++ [EvTransition "clf-model" 1 "Staging"] /\
    count is_transition before = 0%nat.
Proof.
  apply (wait_transition_failure_propagates
           (refusing_transitions (scripted [PENDING_REGISTRATION; READY]))
           "clf-model" 1 "Staging" [PENDING_REGISTRATION] initial_world);
    [reflexivity | cbn; lia | reflexivity | reflexivity].
Defined.

(** X5.  A call that returns normally tells its caller nothing about
    the outcome: either its last event is the accepted transition, or it
    made ten lookups and ten sleeps and no transition at all. *)
Theorem wait_returns_in_two_ways (env : Env) (name : string) (version : Z)
    (stage : string) (w w' : World) :
  wait_model_transition name version stage env w = (Returned tt, w') ->
  exists evs,
    trace w' = trace w ++ evs /\
    ((exists before,
         evs = before ++ [EvTransition name version stage] /\
         env_raises env (EvTransition name version stage) = None) \/
     (count is_lookup evs = 10%nat /\ count is_sleep evs = 10%nat /\
      count is_transition evs = 0%nat)).
Proof. apply loop_returned. Qed.

Lemma wait_returns_in_two_ways_witness :
  exists evs,
    trace (snd (wait_model_transition "clf-model" 1 "Staging"
                  (server false [] (scripted (repeat PENDING_REGISTRATION 10)))
                  initial_world))
    = trace initial_world ++ evs /\
    ((exists before,
         evs = before ++ [EvTransition "clf-model" 1 "Staging"] /\
         env_raises (server false [] (scripted (repeat PENDING_REGISTRATION 10)))
           (EvTransition "clf-model" 1 "Staging") = None) \/
     (count is_lookup evs = 10%nat /\ count is_sleep evs = 10%nat /\
      count is_transition evs = 0%nat)).
Proof.
  apply (wait_returns_in_two_ways
           (server false [] (scripted (repeat PENDING_REGISTRATION 10)))
           "clf-model" 1 "Staging" initial_world).
  reflexivity.
Defined.

(** X6.  Every line the call prints comes right after a successful
    lookup and is "Model status: " followed by the status string that
    this lookup reported. *)
Theorem wait_prints_reported_status (env : Env) (name : string) (version : Z)
    (stage : string) (w : World) :
  exists evs,
    trace (snd (wait_model_transition name version stage env w)) = trace w ++ evs /\
    forall a b line,
      evs = a ++ EvPrint line :: b ->
      exists a' details,
        a = a' ++ [EvGetModelVersion name version (Returned details)] /\
        line = ("Model status: " ++ mv_status details)%string.
Proof.
  destruct (loop_events env name version stage 10 w) as (evs & Ht & Hp).
  exists evs. split; [exact Ht|].
  exact (poll_print_preceded _ _ _ _ _ Hp).
Qed.

(** * Further properties of [main] *)

(** ** Paths *)







(** ** Lines 46-56 *)

(** X8.  Without HOME in the environment [main] stops at line 52:
    [os.path.join] raises [TypeError] on [None], after the clock and
    the environment were read and before anything is written or sent. *)
Theorem main_without_home (env : Env) (w : World) :
  env_getenv env "HOME" = None ->
  main env w
  = (Raised (mkExc "TypeError"
               "expected str, bytes or os.PathLike object, not NoneType"),
     mkWorld (trace w ++ [EvNow (env_now env); EvGetenv "HOME" None]) (lookups w)).
Proof.
  intros H. unfold main, main_train_and_register, bind, now_timestamp, os_getenv.
  cbn. rewrite H. cbn. unfold record. cbn. now rewrite <- app_assoc.
Qed.

Lemma main_without_home_witness :
  main no_home initial_world
  = (Raised (mkExc "TypeError"
               "expected str, bytes or os.PathLike object, not NoneType"),
     mkWorld (trace initial_world ++ [EvNow (env_now no_home); EvGetenv "HOME" None])
       (lookups initial_world)).
Proof. apply (main_without_home no_home initial_world). reflexivity. Defined.

(** ** Lines 146-154 *)

(** The order of strings, in which [max] compares version texts. *)

Lemma string_compare_refl (s : string) : String.compare s s = Eq.
Proof.
  induction s as [|c s IH]; cbn; [reflexivity|].
  unfold Ascii.compare. now rewrite N.compare_refl.
Qed.

Lemma string_lt_trans (a : string) :
  forall b c,
    String.compare a b = Lt -> String.compare b c = Lt -> String.compare a c = Lt.
Proof.
  induction a as [|x a IH]; intros [|y b] [|z c]; cbn; intros H1 H2;
    try discriminate; try reflexivity.
  destruct (Ascii.compare x y) eqn:Exy; try discriminate H1.
  - apply Ascii.compare_eq_iff in Exy. subst y.
    destruct (Ascii.compare x z); try discriminate H2; [eauto | reflexivity].
  - destruct (Ascii.compare y z) eqn:Eyz; try discriminate H2.
    + apply Ascii.compare_eq_iff in Eyz. subst z. now rewrite Exy.
    + unfold Ascii.compare in *.
      apply N.compare_lt_iff in Exy, Eyz.
      replace (N_of_ascii x ?= N_of_ascii z)%N with Lt; [reflexivity|].
      symmetry. apply N.compare_lt_iff. now apply N.lt_trans with (N_of_ascii y).
Qed.

Lemma ltb_irrefl (s : string) : String.ltb s s = false.
Proof. unfold String.ltb. now rewrite string_compare_refl. Qed.

Lemma ltb_trans (a b c : string) :
  String.ltb a b = true -> String.ltb b c = true -> String.ltb a c = true.
Proof.
  unfold String.ltb. intros H1 H2.
  destruct (String.compare a b) eqn:Eab; try discriminate H1.
  destruct (String.compare b c) eqn:Ebc; try discriminate H2.
  now rewrite (string_lt_trans a b c Eab Ebc).
Qed.

Lemma not_ltb_cases (a b : string) :
  String.ltb a b = false -> b = a \/ String.ltb b a = true.
Proof.
  unfold String.ltb. rewrite (String.compare_antisym b a).
  destruct (String.compare a b) eqn:E; cbn; intros H; try discriminate H.
  - left. symmetry. now apply String.compare_eq_iff.
  - right. reflexivity.
Qed.

Lemma not_ltb_trans (a b c : string) :
  String.ltb a b = false -> String.ltb b c = false -> String.ltb a c = false.
Proof.
  intros Hab Hbc.
  destruct (not_ltb_cases a b Hab) as [-> | Hba]; [exact Hbc|].
  destruct (not_ltb_cases b c Hbc) as [-> | Hcb]; [exact Hab|].
  destruct (String.ltb a c) eqn:E; [|reflexivity].
  pose proof (ltb_trans _ _ _ (ltb_trans _ _ _ Hcb Hba) E) as H.
  now rewrite ltb_irrefl in H.
Qed.

Lemma fold_text_max_spec (l : list Z) :
  forall v,
    (fold_left text_max l v = v \/ In (fold_left text_max l v) l) /\
    String.ltb (version_text (fold_left text_max l v)) (version_text v) = false /\
    Forall (fun x =>
              String.ltb (version_text (fold_left text_max l v)) (version_text x)
              = false) l.
Proof.
  induction l as [|x l IH]; intros v; cbn [fold_left].
  - repeat split; [now left | apply ltb_irrefl | constructor].
  - destruct (IH (text_max v x)) as (Hin & Hle & Hall).
    set (m := fold_left text_max l (text_max v x)) in *. clearbody m.
    unfold text_max in Hin, Hle.
    destruct (String.ltb (version_text v) (version_text x)) eqn:E.
    + split; [|split].
      * right. destruct Hin as [-> | Hin]; [now left | now right].
      * destruct (String.ltb (version_text m) (version_text v)) eqn:E2; [|reflexivity].
        now rewrite (ltb_trans _ _ _ E2 E) in Hle.
      * constructor; assumption.
    + split; [|split].
      * destruct Hin as [-> | Hin]; [now left | right; now right].
      * exact Hle.
      * constructor; [|exact Hall]. exact (not_ltb_trans _ _ _ Hle E).
Qed.

(** What lines 146-154 have done when they return. *)
Lemma describe_latest_returned (env : Env) (artifact_path : string)
    (w w1 : World) (v : Z) :
  main_describe_latest artifact_path env w = (Returned v, w1) ->
  exists infos,
    env_search_model_versions env ("name = '" ++ artifact_path ++ "'")
    = Returned infos /\
    In v (map mv_version infos) /\
    Forall (fun x => String.ltb (version_text v) (version_text x) = false)
      (map mv_version infos) /\
    trace w1
    = trace w
        ++ [EvSearchModelVersions ("name = '" ++ artifact_path ++ "'") (Returned infos);
            EvUpdateModelVersion artifact_path v
              "Random forest scikit-learn model with 100 decision trees."].
Proof.
  unfold main_describe_latest, bind, search_model_versions, lift,
    update_model_version, request, ret.
  destruct (env_search_model_versions env ("name = '" ++ artifact_path ++ "'"))
    as [infos|e]; [|discriminate].
  destruct (py_max (map mv_version infos)) as [m|e] eqn:Hmax; [|discriminate].
  destruct (env_raises env _); [discriminate|].
  intros H. injection H as <- <-. exists infos. split; [reflexivity|].
  destruct (map mv_version infos) as [|x l]; [discriminate Hmax|].
  cbn in Hmax. injection Hmax as <-.
  destruct (fold_text_max_spec l x) as (Hin & Hle & Hall).
  split; [|split].
  - destruct Hin as [-> | Hin]; [now left | now right].
  - constructor; assumption.
  - rewrite !trace_record, <- app_assoc. reflexivity.
Qed.

(** X9.  When lines 146-154 complete, the version they describe and
    hand on is one of the versions the search returned, and it is the
    largest of them as text, not as a number: no version found has a
    decimal text that comes later, character by character, than its own
    (with versions 8, 9 and 10 found it is 9).  The only requests issued
    there are the search filtered on the artifact path and the
    description update of that version. *)
Theorem main_describes_last_version_text (env : Env) (artifact_path : string)
    (w w1 : World) (v : Z) :
  main_describe_latest artifact_path env w = (Returned v, w1) ->
  exists infos,
    env_search_model_versions env ("name = '" ++ artifact_path ++ "'")
    = Returned infos /\
    In v (map mv_version infos) /\
    Forall (fun x => String.ltb (version_text v) (version_text x) = false)
      (map mv_version infos) /\
    trace w1
    = trace w
        ++ [EvSearchModelVersions ("name = '" ++ artifact_path ++ "'") (Returned infos);
            EvUpdateModelVersion artifact_path v
              "Random forest scikit-learn model with 100 decision trees."].
Proof. apply describe_latest_returned. Qed.

Lemma main_describes_last_version_text_witness :
  exists infos,
    env_search_model_versions tenth_registration ("name = '" ++ demo_path ++ "'")
    = Returned infos /\
    In 9 (map mv_version infos) /\
    Forall (fun x => String.ltb (version_text 9) (version_text x) = false)
      (map mv_version infos) /\
    trace (snd (main_describe_latest demo_path tenth_registration initial_world))
    = trace initial_world
        ++ [EvSearchModelVersions ("name = '" ++ demo_path ++ "'") (Returned infos);
            EvUpdateModelVersion demo_path 9
              "Random forest scikit-learn model with 100 decision trees."].
Proof.
  apply (main_describes_last_version_text tenth_registration demo_path initial_world).
  reflexivity.
Defined.

(** The tenth registration: the version described and promoted is 9. *)
Example tenth_registration_run :
  fst (main_describe_latest demo_path tenth_registration initial_world) = Returned 9 /\
  filter is_transition (trace (snd (main tenth_registration initial_world)))
  = [EvTransition demo_path 8 "None"; EvTransition demo_path 9 "Staging"].
Proof. split; vm_compute; reflexivity. Qed.

(** ** Lines 46-143 *)

Lemma bind_returned_inv {A B} (m : M A) (k : A -> M B) (env : Env) (w w' : World)
    (b : B) :
  bind m k env w = (Returned b, w') ->
  exists a w1, m env w = (Returned a, w1) /\ k a env w1 = (Returned b, w').
Proof.
  unfold bind. destruct (m env w) as [[a|e] w1]; [eauto | discriminate].
Qed.

Lemma request_returned (ev : Event) (env : Env) (w w' : World) (a : unit) :
  request ev env w = (Returned a, w') -> w' = record ev w.
Proof.
  unfold request. destruct (env_raises env ev); [discriminate|].
  now intros H; injection H as _ <-.
Qed.

Lemma ret_returned {A} (a b : A) (env : Env) (w w' : World) :
  ret a env w = (Returned b, w') -> b = a /\ w' = w.
Proof. unfold ret. intros H. injection H as <- <-. auto. Qed.

Lemma emit_returned (ev : Event) (env : Env) (w w' : World) (a : unit) :
  emit ev env w = (Returned a, w') -> w' = record ev w.
Proof. unfold emit. now intros H; injection H as _ <-. Qed.

(** One statement that returns nothing, and the state it leaves. *)
Ltac unit_step H :=
  let H1 := fresh "Hstep" in
  apply bind_returned_inv in H;
  destruct H as (? & ? & H1 & H);
  match type of H1 with
  | _ ?env _ = _ =>
      first [apply (request_returned _ env) in H1 | apply (emit_returned _ env) in H1]
  end;
  subst.

(** What lines 46-143 have done when they return. *)
Lemma train_and_register_returned (env : Env) (w w0 : World)
    (artifact_path : string) :
  main_train_and_register env w = (Returned artifact_path, w0) ->
  exists home found run_id,
    env_getenv env "HOME" = Some home /\
    artifact_path = os_path_join home ["mlflow_artifacts"; "clf-model"] /\
    env_get_experiment_by_name env experiment_name = Returned (Some found) /\
    env_start_run env ("test" ++ str_int (env_now env)) = Returned run_id /\
    lookups w0 = lookups w /\
    trace w0
    = trace w
        ++ [EvNow (env_now env); EvGetenv "HOME" (Some home);
            EvPathExists artifact_path (env_path_exists env artifact_path)]
        ++ (if env_path_exists env artifact_path then []
            else [EvMakedirs artifact_path])
        ++ found_experiment_events found
        ++ run_events ("test" ++ str_int (env_now env)) run_id artifact_path.
Proof.
  intros H. unfold main_train_and_register in H.
  apply bind_returned_inv in H as (timestamp & wa & H1 & H).
  unfold now_timestamp in H1. injection H1 as <- <-. cbv zeta in H.
  apply bind_returned_inv in H as (home & wb & H1 & H).
  unfold os_getenv in H1. injection H1 as <- <-.
  apply bind_returned_inv in H as (path & wc & H1 & H).
  destruct (env_getenv env "HOME") as [home|] eqn:Hhome; [|discriminate H1].
  apply (ret_returned (os_path_join home ["mlflow_artifacts"; "clf-model"]) _ env)
    in H1.
  destruct H1 as [Hpath ->].
  apply bind_returned_inv in H as (present & wd & H1 & H).
  assert (Hwd : present = env_path_exists env path /\
                wd = record (EvPathExists path (env_path_exists env path))
                       (record (EvGetenv "HOME" (Some home))
                          (record (EvNow (env_now env)) w)))
    by (unfold os_path_exists in H1; split; congruence).
  clear H1. destruct Hwd as [-> ->].
  apply bind_returned_inv in H as (u & we & H1 & H).
  assert (Hwe : trace we
                = trace w
                    ++ [EvNow (env_now env); EvGetenv "HOME" (Some home);
                        EvPathExists path (env_path_exists env path)]
                    ++ (if env_path_exists env path then [] else [EvMakedirs path])
                /\ lookups we = lookups w).
  { destruct (env_path_exists env path); cbn [negb] in H1.
    - apply (ret_returned _ _ env) in H1 as [_ ->].
      rewrite !trace_record, <- !app_assoc. now rewrite app_nil_r.
    - apply request_returned in H1. subst we.
      rewrite !trace_record, <- !app_assoc. auto. }
  clear H1. destruct Hwe as [Hwe Hle].
  do 7 unit_step H.
  apply bind_returned_inv in H as (mlf_experiment & wf & H1 & H).
  unfold get_experiment_by_name in H1.
  destruct (env_get_experiment_by_name env experiment_name) as [reply|] eqn:Hexp;
    [|discriminate H1].
  injection H1 as <- <-.
  apply bind_returned_inv in H as (u1 & wg & H1 & H).
  apply bind_returned_inv in H as (ready_id & wh & H2 & H).
  destruct reply as [found|]; [|discriminate H2].
  apply (ret_returned _ _ env) in H1 as [_ ->].
  apply (ret_returned (experiment_id found) _ env) in H2. destruct H2 as [-> ->].
  do 3 unit_step H.
  apply bind_returned_inv in H as (u2 & wi & H1 & H).
  apply (ret_returned _ _ env) in H as [-> ->].
  unfold with_start_run in H1.
  destruct (env_start_run env ("test" ++ str_int (env_now env))) as [run_id|]
    eqn:Hrun; [|discriminate H1].
  match type of H1 with
  | context [bind ?m ?k env ?w0] => destruct (bind m k env w0) as [[u3|e] wj] eqn:Hbody
  end; [|discriminate H1].
  injection H1 as _ <-.
  do 6 unit_step Hbody. apply request_returned in Hbody. subst wj.
  exists home, found, run_id.
  repeat (split; [reflexivity|]). split; [exact Hle|].
  unfold found_experiment_events, run_events.
  rewrite !trace_record, Hwe, <- !app_assoc. reflexivity.
Qed.

(** X10.  When lines 46-143 complete, HOME was set, the experiment was
    found rather than created, and the requests issued were, in source
    order: the clock, HOME, the existence test of the artifact path (and
    [makedirs] when it was missing), the data and pipeline steps, the
    experiment lookup and selection, and one run in which the model was
    fitted and scored, both metrics and the model were logged, and the
    model was registered under "clf-model" from
    "runs:/<run id>/<artifact path>" before the run ended as FINISHED. *)
Theorem main_train_and_register_success (env : Env) (w w0 : World)
    (artifact_path : string) :
  main_train_and_register env w = (Returned artifact_path, w0) ->
  exists home found run_id,
    env_getenv env "HOME" = Some home /\
    artifact_path = os_path_join home ["mlflow_artifacts"; "clf-model"] /\
    env_get_experiment_by_name env experiment_name = Returned (Some found) /\
    env_start_run env ("test" ++ str_int (env_now env)) = Returned run_id /\
    lookups w0 = lookups w /\
    trace w0
    = trace w
        ++ [EvNow (env_now env); EvGetenv "HOME" (Some home);
            EvPathExists artifact_path (env_path_exists env artifact_path)]
        ++ (if env_path_exists env artifact_path then []
            else [EvMakedirs artifact_path])
        ++ found_experiment_events found
        ++ run_events ("test" ++ str_int (env_now env)) run_id artifact_path.
Proof. apply train_and_register_returned. Qed.

Lemma main_train_and_register_success_witness :
  exists home found run_id,
    env_getenv first_registration "HOME" = Some home /\
    demo_path = os_path_join home ["mlflow_artifacts"; "clf-model"] /\
    env_get_experiment_by_name first_registration experiment_name
    = Returned (Some found) /\
    env_start_run first_registration ("test" ++ str_int (env_now first_registration))
    = Returned run_id /\
    lookups (snd (main_train_and_register first_registration initial_world))
    = lookups initial_world /\
    trace (snd (main_train_and_register first_registration initial_world))
    = trace initial_world
        ++ [EvNow (env_now first_registration); EvGetenv "HOME" (Some home);
            EvPathExists demo_path (env_path_exists first_registration demo_path)]
        ++ (if env_path_exists first_registration demo_path then []
            else [EvMakedirs demo_path])
        ++ found_experiment_events found
        ++ run_events ("test" ++ str_int (env_now first_registration)) run_id demo_path.
Proof.
  apply (main_train_and_register_success first_registration initial_world).
  reflexivity.
Defined.

(** ** The experiment *)

Lemma emits_get_experiment_reply (env : Env) (P : Event -> Prop) (name : string) :
  (forall reply, P (EvGetExperimentByName name reply)) ->
  emits env P (get_experiment_by_name name)
    (fun found => env_get_experiment_by_name env name = Returned found).
Proof.
  intros H w. eexists [_]. unfold get_experiment_by_name. cbn [fst snd].
  rewrite trace_record. split; [reflexivity|]. split; [auto|].
  now destruct (env_get_experiment_by_name env name).
Qed.

(** Lines 146-164 issue no request other than the search, the
    description update, the two polls and the error record. *)
Lemma emits_main_rest (env : Env) (P : Event -> Prop) (artifact_path : string) :
  (forall f reply, P (EvSearchModelVersions f reply)) ->
  (forall n v d, P (EvUpdateModelVersion n v d)) ->
  (forall n v reply, P (EvGetModelVersion n v reply)) ->
  (forall n v s, P (EvTransition n v s)) ->
  (forall line, P (EvPrint line)) ->
  (forall secs, P (EvSleep secs)) ->
  (forall message, P (EvLog "ERROR" message)) ->
  emits env P
    (bind (main_describe_latest artifact_path) (main_promote artifact_path))
    (fun _ => True).
Proof.
  intros Hsearch Hupdate Hget Htrans Hprint Hsleep Hlog.
  eapply emits_bind with (Q := fun _ => True).
  { unfold main_describe_latest.
    eapply emits_bind; [apply emits_search_model_versions; auto | intros infos _].
    eapply emits_bind with (Q := fun _ => True).
    { apply emits_lift. now destruct (py_max (map mv_version infos)). }
    intros v _.
    eapply emits_bind; [apply emits_request; auto | intros _ _].
    now apply emits_ret. }
  intros v _. unfold main_promote.
  eapply emits_bind with (Q := fun _ => True).
  { apply emits_try_except.
    - apply emits_wait_model_transition; auto.
    - intros e. apply emits_emit. apply Hlog. }
  intros _ _. apply emits_wait_model_transition; auto.
Qed.

Ltac quiet_step :=
  eapply emits_bind;
  [ first [apply emits_request | apply emits_emit]; reflexivity | intros _ _ ].

(** X11.  When the experiment lookup finds the experiment, [main]
    never asks for it to be created, however the run goes on. *)
Theorem main_keeps_found_experiment (env : Env) (found : Experiment) (w : World) :
  env_get_experiment_by_name env experiment_name = Returned (Some found) ->
  exists evs,
    trace (snd (main env w)) = trace w ++ evs /\
    count is_create_experiment evs = 0%nat.
Proof.
  intros Hfound.
  assert (Hmain : emits env (fun ev => is_create_experiment ev = false) main
                    (fun _ => True)).
  { unfold main.
    eapply emits_bind with (Q := fun _ => True).
    2: { intros artifact_path _.
         apply (emits_main_rest env _ artifact_path); reflexivity. }
    unfold main_train_and_register.
    eapply emits_bind;
      [apply emits_now_timestamp; reflexivity | intros timestamp _].
    cbv zeta.
    eapply emits_bind; [apply emits_os_getenv; reflexivity | intros home _].
    eapply emits_bind with (Q := fun _ => True).
    { destruct home; [now apply emits_ret | apply emits_raise]. }
    intros artifact_path _.
    eapply emits_bind; [apply emits_os_path_exists; reflexivity | intros present _].
    eapply emits_bind with (Q := fun _ => True).
    { destruct present; cbn [negb];
        [now apply emits_ret | apply emits_request; reflexivity]. }
    intros _ _.
    do 7 quiet_step.
    eapply emits_bind;
      [apply emits_get_experiment_reply; reflexivity | intros mlf_experiment Hreply].
    rewrite Hfound in Hreply. injection Hreply as <-.
    eapply emits_bind with (Q := fun _ => True); [now apply emits_ret | intros _ _].
    eapply emits_bind with (Q := fun _ => True);
      [now apply emits_lift | intros ready_id _].
    do 3 quiet_step.
    eapply emits_bind with (Q := fun _ => True).
    { apply emits_with_start_run; try reflexivity.
      intros run_num. do 6 quiet_step. apply emits_request. reflexivity. }
    intros _ _. now apply emits_ret. }
  destruct (Hmain w) as (evs & Ht & Hf & _).
  exists evs. split; [exact Ht|]. now apply count_zero_Forall.
Qed.

Lemma main_keeps_found_experiment_witness :
  exists evs,
    trace (snd (main first_registration initial_world)) = trace initial_world ++ evs /\
    count is_create_experiment evs = 0%nat.
Proof.
  apply (main_keeps_found_experiment first_registration
           (mkExperiment "1" experiment_name) initial_world).
  reflexivity.
Defined.

(** ** Lines 157-164 *)

Lemma count_staging_le (evs : list Event) :
  (count is_staging evs <= count is_transition evs)%nat.
Proof.
  unfold count. induction evs as [|ev evs IH]; [reflexivity|].
  destruct ev; cbn [filter is_staging is_transition]; try exact IH.
  destruct (String.eqb stage "Staging"); cbn [List.length]; lia.
Qed.

Lemma poll_event_none_not_staging (name : string) (version : Z) (ev : Event) :
  poll_event name version "None" ev -> is_staging ev = false.
Proof.
  destruct ev; cbn; try reflexivity. now intros (_ & _ & ->).
Qed.

(** The state in which the poll of the new version starts. *)
Lemma after_try_events (env : Env) (artifact_path : string) (v : Z) (w : World) :
  exists evs,
    trace (match fst (wait_model_transition artifact_path (v - 1) "None" env w) with
           | Returned _ =>
               snd (wait_model_transition artifact_path (v - 1) "None" env w)
           | Raised e =>
               record
                 (EvLog "ERROR" ("wait_model_transition got exception " ++ str_exc e))
                 (snd (wait_model_transition artifact_path (v - 1) "None" env w))
           end)
    = trace w ++ evs /\
    Forall (promote_event artifact_path v) evs /\
    Forall (fun ev => is_staging ev = false) evs /\
    (count is_lookup evs <= 10)%nat /\
    (count is_sleep evs <= 10)%nat /\
    (count is_transition evs <= 1)%nat.
Proof.
  destruct (loop_events env artifact_path (v - 1) "None" 10 w) as (evs & Ht & Hp).
  fold (wait_model_transition artifact_path (v - 1) "None" env w) in Ht.
  pose proof (poll_events_own _ _ _ _ _ Hp) as Hown.
  pose proof (poll_lookups_bound _ _ _ _ _ Hp) as Hl.
  pose proof (poll_sleeps_bound _ _ _ _ _ Hp) as Hs.
  pose proof (poll_transitions_count _ _ _ _ _ Hp) as Hc.
  assert (Hpro : Forall (promote_event artifact_path v) evs).
  { eapply Forall_impl; [|exact Hown]. intros ev H. now left. }
  assert (Hst : Forall (fun ev => is_staging ev = false) evs).
  { eapply Forall_impl; [|exact Hown].
    intros ev. apply poll_event_none_not_staging. }
  destruct (fst (wait_model_transition artifact_path (v - 1) "None" env w)) as [u|e].
  - exists evs. auto 10.
  - exists (evs ++ [EvLog "ERROR" ("wait_model_transition got exception " ++ str_exc e)]).
    rewrite trace_record, Ht, <- app_assoc. split; [reflexivity|].
    split. { apply Forall_app. split; [exact Hpro|]. constructor; [|constructor].
             right. right. eauto. }
    split. { apply Forall_app. split; [exact Hst|]. now repeat constructor. }
    rewrite !count_app. unfold count at 2 4 6. cbn. lia.
Qed.

(** X12.  Whatever the registry answers, lines 157-164 only look up
    and move the previous version towards "None" and the new version
    towards "Staging", besides printing, sleeping one second at a time
    and logging the caught error; in all they make at most 20 lookups,
    sleep at most 20 times and request at most 2 transitions. *)
Theorem main_promote_bounded (env : Env) (artifact_path : string) (v : Z) (w : World) :
  exists evs,
    trace (snd (main_promote artifact_path v env w)) = trace w ++ evs /\
    Forall (promote_event artifact_path v) evs /\
    (count is_lookup evs <= 20)%nat /\
    (count is_sleep evs <= 20)%nat /\
    (count is_transition evs <= 2)%nat.
Proof.
  rewrite main_promote_after_try.
  destruct (after_try_events env artifact_path v w)
    as (evs1 & Ht1 & Hpro1 & _ & Hl1 & Hs1 & Hc1).
  match goal with
  | |- context [wait_model_transition artifact_path v "Staging" env ?mid] =>
      destruct (loop_events env artifact_path v "Staging" 10 mid) as (evs2 & Ht2 & Hp2)
  end.
  fold (wait_model_transition artifact_path v "Staging" env) in Ht2.
  exists (evs1 ++ evs2). rewrite Ht2, Ht1, <- app_assoc. split; [reflexivity|].
  split.
  { apply Forall_app. split; [exact Hpro1|].
    eapply Forall_impl; [|exact (poll_events_own _ _ _ _ _ Hp2)].
    intros ev H. right. now left. }
  pose proof (poll_lookups_bound _ _ _ _ _ Hp2).
  pose proof (poll_sleeps_bound _ _ _ _ _ Hp2).
  pose proof (poll_transitions_count _ _ _ _ _ Hp2).
  rewrite !count_app. lia.
Qed.

(** X13.  On a later registration, where the previous and the new
    version are both READY at their first lookup and the registry
    accepts both transitions, lines 157-164 move the previous version
    to "None" first and the new version to "Staging" next, with two
    lookups, no sleep and nothing logged, and return normally. *)
Theorem main_promote_both_ready (env : Env) (artifact_path : string) (v : Z)
    (w : World) (previous current : ModelVersion) :
  env_get_model_version env (lookups w) artifact_path (v - 1) = Returned previous ->
  observed_status (Returned previous) = Some READY ->
  env_get_model_version env (S (lookups w)) artifact_path v = Returned current ->
  observed_status (Returned current) = Some READY ->
  env_raises env (EvTransition artifact_path (v - 1) "None") = None ->
  env_raises env (EvTransition artifact_path v "Staging") = None ->
  main_promote artifact_path v env w
  = (Returned tt,
     mkWorld
       (trace w
          ++ [EvGetModelVersion artifact_path (v - 1) (Returned previous);
              EvPrint "Model status: READY";
              EvTransition artifact_path (v - 1) "None";
              EvGetModelVersion artifact_path v (Returned current);
              EvPrint "Model status: READY";
              EvTransition artifact_path v "Staging"])
       (S (S (lookups w)))).
Proof.
  intros Hp Hps Hc Hcs Hrp Hrc.
  unfold main_promote, bind, try_except, wait_model_transition.
  rewrite (loop_ready env artifact_path (v - 1) "None" 9 w previous Hp Hps).
  unfold request at 1. rewrite Hrp.
  match goal with
  | |- context [wait_model_transition_loop 10 artifact_path v "Staging" env ?mid] =>
      rewrite (loop_ready env artifact_path v "Staging" 9 mid current Hc Hcs)
  end.
  unfold request. rewrite Hrc.
  unfold record, after_lookup. cbn [trace lookups].
  rewrite <- !app_assoc. reflexivity.
Qed.

Lemma main_promote_both_ready_witness :
  main_promote demo_path 3 later_registration initial_world
  = (Returned tt,
     mkWorld
       (trace initial_world
          ++ [EvGetModelVersion demo_path (3 - 1)
                (Returned (mkModelVersion demo_path 2 "READY"));
              EvPrint "Model status: READY";
              EvTransition demo_path (3 - 1) "None";
              EvGetModelVersion demo_path 3
                (Returned (mkModelVersion demo_path 3 "READY"));
              EvPrint "Model status: READY";
              EvTransition demo_path 3 "Staging"])
       (S (S (lookups initial_world)))).
Proof.
  apply (main_promote_both_ready later_registration demo_path 3 initial_world
           (mkModelVersion demo_path 2 "READY") (mkModelVersion demo_path 3 "READY"));
    reflexivity.
Defined.

(** X14.  [main] reports nothing when the new version never becomes
    READY: once lines 46-154 have returned, if none of the ten answers
    for the new version is READY, [main] returns normally although lines
    157-164 requested no transition to "Staging". *)
Theorem main_returns_without_staging (env : Env) (w w0 w1 : World)
    (artifact_path : string) (v : Z) (statuses : list Status) :
  main_train_and_register env w = (Returned artifact_path, w0) ->
  main_describe_latest artifact_path env w0 = (Returned v, w1) ->
  List.length statuses = 10%nat ->
  forallb not_ready statuses = true ->
  answers env
    (lookups (snd (wait_model_transition artifact_path (v - 1) "None" env w1)))
    artifact_path v statuses = true ->
  exists evs w',
    main env w = (Returned tt, w') /\
    trace w' = trace w1 ++ evs /\
    count is_staging evs = 0%nat.
Proof.
  intros H0 H1 Hlen Hnr Hans.
  rewrite (main_at_promote env w w0 w1 artifact_path v H0 H1).
  rewrite main_promote_after_try.
  destruct (after_try_events env artifact_path v w1)
    as (evs1 & Ht1 & _ & Hst1 & _).
  match goal with
  | |- context [wait_model_transition artifact_path v "Staging" env ?mid] =>
      set (middle := mid) in *
  end.
  assert (Hlook : lookups middle
                  = lookups (snd (wait_model_transition artifact_path (v - 1) "None"
                                    env w1))).
  { subst middle.
    now destruct (fst (wait_model_transition artifact_path (v - 1) "None" env w1)). }
  rewrite <- Hlook in Hans.
  destruct (wait_exhausted env artifact_path v "Staging" statuses middle Hlen Hnr Hans)
    as (evs2 & w' & Heq & Ht2 & _ & _ & Hc2).
  exists (evs1 ++ evs2), w'. split; [exact Heq|].
  split. { rewrite Ht2, Ht1, <- app_assoc. reflexivity. }
  rewrite count_app, (count_zero_Forall _ _ Hst1).
  pose proof (count_staging_le evs2). lia.
Qed.

Lemma main_returns_without_staging_witness :
  exists evs w',
    main never_ready initial_world = (Returned tt, w') /\
    trace w'
    = trace (snd (main_describe_latest demo_path never_ready
                    (snd (main_train_and_register never_ready initial_world))))
        ++ evs /\
    count is_staging evs = 0%nat.
Proof.
  apply (main_returns_without_staging never_ready initial_world
           (snd (main_train_and_register never_ready initial_world))
           (snd (main_describe_latest demo_path never_ready
                   (snd (main_train_and_register never_ready initial_world))))
           demo_path 1 (repeat PENDING_REGISTRATION 10));
    reflexivity.
Defined.

(** ** Failures before the search *)

(** The run in which fitting fails: the run is ended as FAILED and
    nothing is registered. *)
Example failing_fit_run :
  fst (main failing_fit initial_world) = Raised fit_failed /\
  skipn 15 (trace (snd (main failing_fit initial_world)))
  = [EvStartRun "test1700000000"
       [("env", "stg"); ("state", "pre-publish"); ("mlflow.user", "Pouria")];
     EvLocal "fit"; EvEndRun "FAILED"].
Proof. split; vm_compute; reflexivity. Qed.

(** * The registry name: claim C9 *)

Lemma poll_events_head (name : string) (version : Z) (stage : string)
    (n : nat) (evs : list Event) :
  poll_events name version stage (S n) evs ->
  exists reply rest,
    evs = EvGetModelVersion name version reply :: rest /\
    Forall (poll_event name version stage) rest.
Proof.
  intros H. pose proof (poll_events_own _ _ _ _ _ H) as Hown.
  inversion H; subst; inversion Hown; subst; eauto.
Qed.

(** Lines 157-164 always start both polls: a lookup of the previous
    version opens the first, a lookup of the new version the second, and
    between the two lies at most the error record of the handler. *)
Lemma promote_shape (env : Env) (artifact_path : string) (v : Z) (w : World) :
  exists reply1 rest1 logged reply2 rest2,
    trace (snd (main_promote artifact_path v env w))
    = trace w
        ++ (EvGetModelVersion artifact_path (v - 1) reply1 :: rest1)
        ++ logged
        ++ (EvGetModelVersion artifact_path v reply2 :: rest2) /\
    Forall (poll_event artifact_path (v - 1) "None") rest1 /\
    Forall (fun ev => exists message, ev = EvLog "ERROR" message) logged /\
    Forall (poll_event artifact_path v "Staging") rest2.
Proof.
  rewrite main_promote_after_try.
  destruct (loop_events env artifact_path (v - 1) "None" 10 w) as (evs1 & Ht1 & Hp1).
  fold (wait_model_transition artifact_path (v - 1) "None" env w) in Ht1.
  destruct (poll_events_head _ _ _ _ _ Hp1) as (reply1 & rest1 & -> & Hown1).
  match goal with
  | |- context [wait_model_transition artifact_path v "Staging" env ?mid] =>
      set (middle := mid)
  end.
  assert (Hmid : exists logged,
             trace middle
             = trace w ++ (EvGetModelVersion artifact_path (v - 1) reply1 :: rest1)
                 ++ logged /\
             Forall (fun ev => exists message, ev = EvLog "ERROR" message) logged).
  { subst middle.
    destruct (fst (wait_model_transition artifact_path (v - 1) "None" env w)) as [u|e].
    - exists []. rewrite Ht1, app_nil_r. auto.
    - eexists [_]. rewrite trace_record, Ht1, <- app_assoc.
      split; [reflexivity|]. constructor; [eauto|constructor]. }
  destruct Hmid as (logged & Hmid & Hlogged).
  destruct (loop_events env artifact_path v "Staging" 10 middle) as (evs2 & Ht2 & Hp2).
  fold (wait_model_transition artifact_path v "Staging" env middle) in Ht2.
  destruct (poll_events_head _ _ _ _ _ Hp2) as (reply2 & rest2 & -> & Hown2).
  exists reply1, rest1, logged, reply2, rest2.
  rewrite Ht2, Hmid, <- !app_assoc. auto.
Qed.

(** C9.  With HOME set, the artifact path of line 52 differs from
    [artifact_name], "clf-model", and every registry request of [main]
    after the registration names the artifact path.  When lines 46-154
    return, these requests were all issued: the model was registered
    under "clf-model"; the versions were then searched with the filter
    on the artifact path and the description updated under the artifact
    path; and both polls were started under the artifact path, the one
    of the previous version and the one of the new version, each with a
    lookup of that name. *)
Theorem main_queries_artifact_path (env : Env) (home : string) (w : World) :
  env_getenv env "HOME" = Some home ->
  let artifact_path := os_path_join home ["mlflow_artifacts"; "clf-model"] in
  artifact_path <> artifact_name /\
  (exists evs,
      trace (snd (main env w)) = trace w ++ evs /\
      Forall (names_registry artifact_name artifact_path) evs) /\
  (forall path w0 v w1,
      main_train_and_register env w = (Returned path, w0) ->
      main_describe_latest path env w0 = (Returned v, w1) ->
      path = artifact_path /\
      (exists earlier run_id,
          trace w0
          = trace w ++ earlier
              ++ [EvRegisterModel ("runs:/" ++ run_id ++ "/" ++ artifact_path)
                    artifact_name;
                  EvEndRun "FINISHED"]) /\
      (exists infos,
          trace w1
          = trace w0
              ++ [EvSearchModelVersions ("name = '" ++ artifact_path ++ "'")
                    (Returned infos);
                  EvUpdateModelVersion artifact_path v
                    "Random forest scikit-learn model with 100 decision trees."]) /\
      (exists reply1 rest1 logged reply2 rest2,
          trace (snd (main env w))
          = trace w1
              ++ (EvGetModelVersion artifact_path (v - 1) reply1 :: rest1)
              ++ logged
              ++ (EvGetModelVersion artifact_path v reply2 :: rest2) /\
          Forall (poll_event artifact_path (v - 1) "None") rest1 /\
          Forall (fun ev => exists message, ev = EvLog "ERROR" message) logged /\
          Forall (poll_event artifact_path v "Staging") rest2)).
Proof.
  intros Hhome artifact_path. split; [|split].
  - apply artifact_path_not_artifact_name.
  - destruct (emits_main_names env home Hhome w) as (evs & Ht & Hf & _).
    exists evs. auto.
  - intros path w0 v w1 H0 H1.
    destruct (train_and_register_returned env w w0 path H0)
      as (home' & found & run_id & Hh & Hpath & _ & _ & _ & Ht0).
    rewrite Hhome in Hh. injection Hh as <-.
    fold artifact_path in Hpath. subst path.
    split; [reflexivity|]. split; [|split].
    + exists ([EvNow (env_now env); EvGetenv "HOME" (Some home);
               EvPathExists artifact_path (env_path_exists env artifact_path)]
              ++ (if env_path_exists env artifact_path then []
                  else [EvMakedirs artifact_path])
              ++ found_experiment_events found
              ++ [EvStartRun ("test" ++ str_int (env_now env))
                    [("env", "stg"); ("state", "pre-publish"); ("mlflow.user", user)];
                  EvLocal "fit"; EvLocal "score(x_train, y_train)";
                  EvLocal "score(x_test, y_test)";
                  EvLogMetric "accuracy_train"; EvLogMetric "accuracy_test";
                  EvLogModel artifact_path]), run_id.
      rewrite Ht0. unfold run_events. rewrite <- !app_assoc. reflexivity.
    + destruct (describe_latest_returned env artifact_path w0 w1 v H1)
        as (infos & _ & _ & _ & Ht1).
      exists infos. exact Ht1.
    + rewrite (main_at_promote env w w0 w1 artifact_path v H0 H1).
      apply promote_shape.
Qed.

Lemma main_queries_artifact_path_witness :
  os_path_join "/home/user" ["mlflow_artifacts"; "clf-model"] <> artifact_name /\
  (exists evs,
      trace (snd (main first_registration initial_world)) = trace initial_world ++ evs /\
      Forall (names_registry artifact_name demo_path) evs) /\
  (exists earlier run_id,
      trace (snd (main_train_and_register first_registration initial_world))
      = trace initial_world ++ earlier
          ++ [EvRegisterModel ("runs:/" ++ run_id ++ "/" ++ demo_path) artifact_name;
              EvEndRun "FINISHED"]) /\
  (exists infos,
      trace (snd (main_describe_latest demo_path first_registration
                    (snd (main_train_and_register first_registration initial_world))))
      = trace (snd (main_train_and_register first_registration initial_world))
          ++ [EvSearchModelVersions ("name = '" ++ demo_path ++ "'") (Returned infos);
              EvUpdateModelVersion demo_path 1
                "Random forest scikit-learn model with 100 decision trees."]) /\
  (exists reply1 rest1 logged reply2 rest2,
      trace (snd (main first_registration initial_world))
      = trace (snd (main_describe_latest demo_path first_registration
                      (snd (main_train_and_register first_registration
                              initial_world))))
          ++ (EvGetModelVersion demo_path (1 - 1) reply1 :: rest1)
          ++ logged
          ++ (EvGetModelVersion demo_path 1 reply2 :: rest2) /\
      Forall (poll_event demo_path (1 - 1) "None") rest1 /\
      Forall (fun ev => exists message, ev = EvLog "ERROR" message) logged /\
      Forall (poll_event demo_path 1 "Staging") rest2).
Proof.
  destruct (main_queries_artifact_path first_registration "/home/user" initial_world
              eq_refl) as (Hne & Hall & Hreach).
  destruct (Hreach demo_path
              (snd (main_train_and_register first_registration initial_world)) 1
              (snd (main_describe_latest demo_path first_registration
                      (snd (main_train_and_register first_registration
                              initial_world))))
              eq_refl eq_refl) as (_ & Hreg & Hsearch & Hpolls).
  split; [exact Hne|]. split; [exact Hall|]. split; [exact Hreg|].
  split; [exact Hsearch|exact Hpolls].
Defined.

(** * Requests answered with an exception in lines 46-143 *)

Section Fatal.

Variable env : Env.










End Fatal.





(** The run in which logging the first metric fails: the run is ended
    as FAILED, and neither the second metric nor the model is logged. *)
Example failing_metric_run :
  fst (main failing_metric initial_world)
  = Raised request_failed /\
  skipn 14 (trace (snd (main failing_metric initial_world)))
  = [EvStartRun "test1700000000"
       [("env", "stg"); ("state", "pre-publish"); ("mlflow.user", "Pouria")];
     EvLocal "fit"; EvLocal "score(x_train, y_train)"; EvLocal "score(x_test, y_test)";
     EvLogMetric "accuracy_train"; EvEndRun "FAILED"].
Proof. split; vm_compute; reflexivity. Qed.
